(** * The storefront's cart, checkout and order views (shop/views.py)

    A shallow embedding of the session cart ([add_to_cart], [cart_view],
    [remove_from_cart]), of [checkout] with its order and stock writes, and
    of the order pages ([order_confirmation], [order_list]), over the tables
    of shop/models.py.

    Conventions of the model.
    - Money is kept in cents.  [Products.price] and [Order.total_amount] are
      [DecimalField(decimal_places=2)]; the views go through [float], and the
      total is rounded to two places when the order row is written, so the
      stored amount is the exact fixed-point sum.
    - A cart entry keeps its price as the text [str(product.price)]; [float]
      and [int] are modelled on the plain decimal numerals ([-12.50], [-3],
      [+3], [42]) and raise [ValueError] on anything else.
    - The session cart is a Python [dict]: an insertion-ordered association
      list.  Its keys are the texts [str(id)]; the model keeps the product id
      itself, which is what [checkout] reads back from the key.
    - A view is a state transformer over the database, the session and the
      message queue that ends in a response or in a raised exception; writes
      made before an exception stay (the views open no transaction). *)

From Stdlib Require Import ZArith NArith Ascii String Decimal DecimalString DecimalN.
From stdpp Require Import gmap strings list sorting.

Local Open Scope string_scope.
Local Open Scope list_scope.
Local Open Scope Z_scope.

(** ** Python numerals *)

Module Numeral.

(** The digits are the characters of codes 48 to 57. *)
Definition digit_of_ascii (a : ascii) : option Z :=
  let code := Z.of_N (N_of_ascii a) in
  if decide (48 ≤ code ≤ 57) then Some (code - 48) else None.

Definition ascii_of_digit (d : Z) : ascii := ascii_of_N (Z.to_N (48 + d)).

(** A run of decimal digits, at least one. *)
Definition digits (s : string) : option Z :=
  match s with
  | EmptyString => None
  | _ => (λ d, Z.of_N (N.of_uint d)) <$> NilEmpty.uint_of_string s
  end.

Definition of_digits (n : Z) : string :=
  NilEmpty.string_of_uint (N.to_uint (Z.to_N n)).

(** Everything before the first full stop, and everything after it. *)
Fixpoint split_dot (s : string) : option (string * string) :=
  match s with
  | EmptyString => None
  | String "."%char r => Some (EmptyString, r)
  | String a r =>
      match split_dot r with
      | Some (i, f) => Some (String a i, f)
      | None => None
      end
  end.

(** [int(text)]. *)
Definition int (s : string) : option Z :=
  match s with
  | String "-"%char r => Z.opp <$> digits r
  | String "+"%char r => digits r
  | _ => digits s
  end.

(** An unsigned amount [ddd.dd], read in cents. *)
Definition cents_unsigned (s : string) : option Z :=
  match split_dot s with
  | Some (i, String a (String b EmptyString)) =>
      match digits i, digit_of_ascii a, digit_of_ascii b with
      | Some n, Some x, Some y => Some (100 * n + 10 * x + y)
      | _, _, _ => None
      end
  | _ => None
  end.

(** [float(text)] on a two-place amount, in cents. *)
Definition float (s : string) : option Z :=
  match s with
  | String "-"%char r => Z.opp <$> cents_unsigned r
  | _ => cents_unsigned s
  end.

(** [str(d)] for a [Decimal] of two places holding [c] cents. *)
Definition str (c : Z) : string :=
  (if decide (c < 0) then "-" else "")
    +:+ of_digits (Z.abs c / 100)
    +:+ String "." (String (ascii_of_digit (Z.abs c mod 100 / 10))
                      (String (ascii_of_digit (Z.abs c mod 10)) EmptyString)).

End Numeral.

(** ** Python dictionaries *)

Module PyDict.
Abbreviation t K V := (list (K * V)).

Section Dict.
Context {K V : Type} `{EqDecision K}.
Local Abbreviation t := (list (K * V)).

(** [d[k]], [None] standing for [KeyError]; [k in d] is [get] giving
    something. *)
Fixpoint get (k : K) (d : t) : option V :=
  match d with
  | [] => None
  | (k', v) :: r => if decide (k' = k) then Some v else get k r
  end.

(** [d[k] = v]: overwrite in place, or add at the end. *)
Fixpoint set (k : K) (v : V) (d : t) : t :=
  match d with
  | [] => [(k, v)]
  | (k', v') :: r =>
      if decide (k' = k) then (k, v) :: r else (k', v') :: set k v r
  end.

(** [del d[k]] for a key that is there; nothing to delete otherwise. *)
Fixpoint del (k : K) (d : t) : t :=
  match d with
  | [] => []
  | (k', v) :: r => if decide (k' = k) then r else (k', v) :: del k r
  end.

(** [d.keys()]. *)
Definition keys (d : t) : list K := d.*1.

(** The number of entries stored under [k]. *)
Definition count (k : K) (d : t) : nat :=
  length (filter (λ kv, kv.1 = k) d).

(** A dictionary holds one entry per key. *)
Definition wf (d : t) : Prop := NoDup (keys d).

Global Instance wf_dec (d : t) : Decision (wf d) := NoDup_dec (keys d).
End Dict.
End PyDict.

(** ** Tables (shop/models.py) *)

Module Products.
Record t := mk {
  name : string;
  price : Z;
  description : string;
  stock : Z;
  Category : option N
}.
Definition with_stock (s : Z) (p : t) : t :=
  mk (name p) (price p) (description p) s (Category p).
End Products.

Module Customer.
Record t := mk {
  phone : string;
  address : string;
  city : string;
  state : string;
  postal_code : string;
  country : string
}.
(** [Customer.objects.create(user=...)]: every other column is blank. *)
Definition blank : t := mk "" "" "" "" "" "".
End Customer.

Module Order.
Record t := mk {
  id : N;
  customer : N;
  products : list N;
  total_amount : Z;
  status : string;
  created_at : Z
}.
(** [order.products.add(product)]: a many-to-many link is stored once. *)
Definition products_add (pid : N) (o : t) : t :=
  mk (id o) (customer o)
     (if decide (pid ∈ products o) then products o else products o ++ [pid])
     (total_amount o) (status o) (created_at o).

Definition status_choices : list (string * string) :=
  [("pending", "Pending"); ("processing", "Processing");
   ("shipped", "Shipped"); ("delivered", "Delivered");
   ("cancelled", "Cancelled")].
End Order.

(** The rows.  A customer profile belongs to one user ([OneToOneField]) and
    is stored under, and referred to by, that user's id. *)
Record DB := mkDB {
  Products_objects : gmap N Products.t;
  Customer_objects : gmap N Customer.t;
  Order_objects : list Order.t;
  Order_last_id : N
}.

(** ** Session, request, response *)

Module CartItem.
(** A cart entry: the dict [{'name', 'price', 'quantity'}], and the key
    ['total'] once something has stored it. *)
Record t := mk {
  name : string;
  price : string;
  quantity : Z;
  total : option Z
}.
Definition with_quantity (q : Z) (i : t) : t := mk (name i) (price i) q (total i).
Definition with_total (x : Z) (i : t) : t := mk (name i) (price i) (quantity i) (Some x).
End CartItem.

Abbreviation Cart := (PyDict.t N CartItem.t).

Record Session := mkSession {
  cart : option Cart;
  modified : bool
}.

Inductive Level := SUCCESS | WARNING.

Record World := mkWorld {
  db : DB;
  session : Session;
  messages : list (Level * string)
}.

Inductive Method := GET | POST.

Record Request := mkRequest {
  method : Method;
  GET_params : gmap string string;
  POST_params : gmap string string;
  user : option N;
  now : Z
}.

Inductive Route :=
  | home
  | cart_page
  | login
  | order_confirmation_page (order_id : N).

(** One row of the cart page: [{'id': product_id, **item}]. *)
Record CartLine := mkLine {
  line_id : N;
  line_item : CartItem.t
}.

Inductive Context :=
  | CartContext (items : list CartLine) (total : Z)
  | CheckoutContext (total : Z) (cart_items : Cart) (customer : option Customer.t)
  | OrderContext (order : Order.t)
  | OrderListContext (orders : list Order.t) (status_filter : option string)
      (status_choices : list (string * string)).

Inductive Response :=
  | Redirect (to : Route)
  | Render (template : string) (context : Context).

Inductive Exception := Http404 | ValueError | KeyError | DoesNotExist.

(** ** Views as state transformers *)

Inductive Result (A : Type) :=
  | Ok (a : A)
  | Raise (e : Exception).
Global Arguments Ok {A} a.
Global Arguments Raise {A} e.

Definition M (A : Type) : Type := World → Result A * World.

Global Instance M_ret : MRet M := λ A a w, (Ok a, w).
Global Instance M_bind : MBind M := λ A B f m w,
  match m w with
  | (Ok a, w') => f a w'
  | (Raise e, w') => (Raise e, w')
  end.

Definition raise {A} (e : Exception) : M A := λ w, (Raise e, w).
Definition gets {A} (f : World → A) : M A := λ w, (Ok (f w), w).
Definition modify (f : World → World) : M unit := λ w, (Ok tt, f w).

(** A builtin that raises [e] where the model has [None]. *)
Definition or_raise {A} (e : Exception) (o : option A) : M A :=
  match o with Some a => mret a | None => raise e end.

(** [for x in xs: body], with the loop's local variables as accumulator. *)
Fixpoint for_fold {A B} (body : B → A → M B) (acc : B) (xs : list A) : M B :=
  match xs with
  | [] => mret acc
  | x :: r => acc' ← body acc x; for_fold body acc' r
  end.

Definition for_each {A} (body : A → M unit) (xs : list A) : M unit :=
  for_fold (λ _ x, body x) tt xs.

Definition with_db (f : DB → DB) : M unit :=
  modify (λ w, mkWorld (f (db w)) (session w) (messages w)).
Definition with_session (f : Session → Session) : M unit :=
  modify (λ w, mkWorld (db w) (f (session w)) (messages w)).

(** [messages.success(request, text)] and [messages.warning(request, text)]. *)
Definition messages_add (l : Level) (text : string) : M unit :=
  modify (λ w, mkWorld (db w) (session w) (messages w ++ [(l, text)])).

(** [request.session['cart'] = c]; item assignment marks the session. *)
Definition session_set_cart (c : Cart) : M unit :=
  with_session (λ _, mkSession (Some c) true).

(** A write through the reference [cart = request.session['cart']]: the
    dictionary changes, the session's flag does not. *)
Definition cart_mutate (f : Cart → Cart) : M unit :=
  with_session (λ s, mkSession (f <$> cart s) (modified s)).

(** [request.session.modified = True]. *)
Definition session_mark_modified : M unit :=
  with_session (λ s, mkSession (cart s) true).

(** [request.session.get('cart', {})]. *)
Definition session_get_cart : M Cart :=
  gets (λ w, default [] (cart (session w))).

(** [get_object_or_404(Products, id=id)]. *)
Definition get_product_or_404 (id : N) : M Products.t :=
  o ← gets (λ w, Products_objects (db w) !! id); or_raise Http404 o.

(** [Products.objects.get(id=id)]. *)
Definition Products_get (id : N) : M Products.t :=
  o ← gets (λ w, Products_objects (db w) !! id); or_raise DoesNotExist o.

(** [product.save()]. *)
Definition Products_save (id : N) (p : Products.t) : M unit :=
  with_db (λ d, mkDB (<[id := p]> (Products_objects d)) (Customer_objects d)
                     (Order_objects d) (Order_last_id d)).

(** [customer.save()], also the insert of [Customer.objects.create]. *)
Definition Customer_save (uid : N) (c : Customer.t) : M unit :=
  with_db (λ d, mkDB (Products_objects d) (<[uid := c]> (Customer_objects d))
                     (Order_objects d) (Order_last_id d)).

(** [Order.objects.create(customer=..., total_amount=..., status=...)]:
    the next id of the [AutoField], no product linked yet. *)
Definition Order_create (cust : N) (total : Z) (st : string) (t : Z) : M N :=
  last ← gets (λ w, Order_last_id (db w));
  let oid := (last + 1)%N in
  with_db (λ d, mkDB (Products_objects d) (Customer_objects d)
                     (Order_objects d ++ [Order.mk oid cust [] total st t]) oid);;
  mret oid.

(** A write to the order row [oid]. *)
Definition Order_update (oid : N) (f : Order.t → Order.t) : M unit :=
  with_db (λ d, mkDB (Products_objects d) (Customer_objects d)
                     ((λ o, if decide (Order.id o = oid) then f o else o)
                        <$> Order_objects d)
                     (Order_last_id d)).

(** [get_object_or_404(Order, id=order_id)]. *)
Definition get_order_or_404 (oid : N) : M Order.t :=
  o ← gets (λ w, list_find (λ o, Order.id o = oid) (Order_objects (db w)));
  or_raise Http404 (snd <$> o).

(** ** The cart (shop/views.py, "CART (Using Session)") *)

(** [int(request.GET.get('quantity', 1))]: the integer, or nothing when
    [int] rejects the text. *)
Definition quantity_of (request : Request) : option Z :=
  match GET_params request !! "quantity" with
  | Some text => Numeral.int text
  | None => Some 1
  end.

Definition quantity_param (request : Request) : M Z :=
  or_raise ValueError (quantity_of request).

Definition add_to_cart (request : Request) (id : N) : M Response :=
  stored ← gets (λ w, cart (session w));
  (if stored is None then session_set_cart [] else mret tt);;
  c ← session_get_cart;
  product ← get_product_or_404 id;
  quantity ← quantity_param request;
  match PyDict.get id c with
  | Some item =>
      cart_mutate
        (PyDict.set id (CartItem.with_quantity (CartItem.quantity item + quantity) item))
  | None =>
      cart_mutate
        (PyDict.set id
           (CartItem.mk (Products.name product)
              (Numeral.str (Products.price product)) quantity None))
  end;;
  session_mark_modified;;
  messages_add SUCCESS (Products.name product +:+ " added to cart!");;
  mret (Redirect cart_page).

(** The body of the loop of [cart_view]: [item] is the entry stored in the
    session's dictionary, so [item['total'] = ...] writes into it. *)
Definition cart_view_step (acc : Z * list CartLine) (entry : N * CartItem.t)
  : M (Z * list CartLine) :=
  let '(total, items) := acc in
  let '(product_id, item) := entry in
  p ← or_raise ValueError (Numeral.float (CartItem.price item));
  let item' := CartItem.with_total (p * CartItem.quantity item) item in
  cart_mutate (PyDict.set product_id item');;
  mret (total + p * CartItem.quantity item, items ++ [mkLine product_id item']).

Definition cart_view (request : Request) : M Response :=
  c ← session_get_cart;
  acc ← for_fold cart_view_step (0, []) c;
  mret (Render "shop/cart.html" (CartContext acc.2 acc.1)).

Definition remove_from_cart (request : Request) (id : N) : M Response :=
  stored ← gets (λ w, cart (session w));
  match stored with
  | Some c =>
      match PyDict.get id c with
      | Some item =>
          cart_mutate (PyDict.del id);;
          session_mark_modified;;
          messages_add SUCCESS (CartItem.name item +:+ " removed from cart!")
      | None => mret tt
      end
  | None => mret tt
  end;;
  mret (Redirect cart_page).

(** ** Checkout and orders (shop/views.py, "CHECKOUT & ORDERS") *)

(** [@login_required(login_url='login')]: the view runs for a logged-in
    user, anybody else is sent to the login page. *)
Definition login_required (view : N → Request → M Response) (request : Request)
  : M Response :=
  match user request with
  | Some uid => view uid request
  | None => mret (Redirect login)
  end.

(** The first loop of [checkout]: [total += float(item['price']) * item['quantity']]. *)
Definition checkout_total_step (total : Z) (entry : N * CartItem.t) : M Z :=
  p ← or_raise ValueError (Numeral.float (CartItem.price entry.2));
  mret (total + p * CartItem.quantity entry.2).

(** [request.POST.get(key, current)]. *)
Definition POST_get (request : Request) (key current : string) : string :=
  default current (POST_params request !! key).

(** The profile of the user, made blank when there is none, then the
    fields of the checkout form over it. *)
Definition checkout_customer (uid : N) (request : Request) : M unit :=
  found ← gets (λ w, Customer_objects (db w) !! uid);
  customer ← match found with
              | Some c => mret c
              | None => Customer_save uid Customer.blank;; mret Customer.blank
              end;
  Customer_save uid
    (Customer.mk
       (POST_get request "phone" (Customer.phone customer))
       (POST_get request "address" (Customer.address customer))
       (POST_get request "city" (Customer.city customer))
       (POST_get request "state" (Customer.state customer))
       (POST_get request "postal_code" (Customer.postal_code customer))
       (POST_get request "country" (Customer.country customer))).

(** The body of the second loop of [checkout], for one key of the cart. *)
Definition checkout_product_step (oid : N) (c : Cart) (product_id : N) : M unit :=
  product ← Products_get product_id;
  Order_update oid (Order.products_add product_id);;
  item ← or_raise KeyError (PyDict.get product_id c);
  Products_save product_id
    (Products.with_stock (Products.stock product - CartItem.quantity item) product).

Definition checkout_view (uid : N) (request : Request) : M Response :=
  c ← session_get_cart;
  match c with
  | [] =>
      messages_add WARNING "Your cart is empty!";;
      mret (Redirect home)
  | _ =>
      total ← for_fold checkout_total_step 0 c;
      match method request with
      | POST =>
          checkout_customer uid request;;
          oid ← Order_create uid total "pending" (now request);
          for_each (checkout_product_step oid c) (PyDict.keys c);;
          session_set_cart [];;
          session_mark_modified;;
          messages_add SUCCESS "Order placed successfully!";;
          mret (Redirect (order_confirmation_page oid))
      | GET =>
          customer ← gets (λ w, Customer_objects (db w) !! uid);
          mret (Render "shop/checkout.html" (CheckoutContext total c customer))
      end
  end.

Definition checkout : Request → M Response := login_required checkout_view.

Definition order_confirmation (request : Request) (order_id : N) : M Response :=
  order ← get_order_or_404 order_id;
  mret (Render "shop/order_confirmation.html" (OrderContext order)).

(** ** Order management (shop/views.py, "ORDERS MANAGEMENT") *)

(** [o1] may come before [o2] under [order_by('-created_at')]. *)
Definition newest_first (o1 o2 : Order.t) : Prop :=
  Order.created_at o2 ≤ Order.created_at o1.

Global Instance newest_first_dec o1 o2 : Decision (newest_first o1 o2) :=
  Z_le_dec (Order.created_at o2) (Order.created_at o1).

Definition order_by_created_at_desc (rows : list Order.t) : list Order.t :=
  merge_sort newest_first rows.

Definition order_list (request : Request) : M Response :=
  orders ← gets (λ w, order_by_created_at_desc (Order_objects (db w)));
  let status_filter := GET_params request !! "status" in
  let orders :=
    match status_filter with
    | Some wanted =>
        if decide (wanted = "") then orders
        else filter (λ o, Order.status o = wanted) orders
    | None => orders
    end in
  mret (Render "shop/order/order_list.html"
          (OrderListContext orders status_filter Order.status_choices)).

(** ** Notions used by the statements *)

(** The cart the session holds, empty when the key is not there. *)
Definition session_cart (w : World) : Cart := default [] (cart (session w)).

(** The sum over the cart of price snapshot times quantity, in cents;
    nothing when a snapshot is not an amount. *)
Fixpoint snapshot_total (c : Cart) : option Z :=
  match c with
  | [] => Some 0
  | (_, item) :: r =>
      p ← Numeral.float (CartItem.price item);
      t ← snapshot_total r;
      Some (p * CartItem.quantity item + t)
  end.

(** Price snapshot times quantity for one entry. *)
Definition line_total (item : CartItem.t) : option Z :=
  p ← Numeral.float (CartItem.price item);
  Some (p * CartItem.quantity item).

(** The cart with the key ['total'] stored in every entry. *)
Definition stamped (c : Cart) : Cart :=
  (λ kv, (kv.1, from_option (λ x, CartItem.with_total x kv.2) kv.2 (line_total kv.2)))
    <$> c.

(** The rows of the cart page. *)
Definition cart_lines (c : Cart) : list CartLine :=
  (λ kv, mkLine kv.1 kv.2) <$> stamped c.


(** The catalog after the stock of the products [ks] went down by their
    cart quantities, one after the other. *)
Definition take_stock (c : Cart) (ks : list N) (m : gmap N Products.t)
  : gmap N Products.t :=
  foldl (λ m k,
           match m !! k, PyDict.get k c with
           | Some p, Some item =>
               <[k := Products.with_stock (Products.stock p - CartItem.quantity item) p]> m
           | _, _ => m
           end) m ks.

(** The order row [o] after the products [ks] were linked to it, and the
    order table after that happened to the row of id [oid]. *)
Definition link_all (ks : list N) (o : Order.t) : Order.t :=
  foldl (λ o k, Order.products_add k o) o ks.

Definition relink (oid : N) (ks : list N) (rows : list Order.t) : list Order.t :=
  (λ o, if decide (Order.id o = oid) then link_all ks o else o) <$> rows.

(** The customer table after the profile step of [checkout]. *)
Definition profile_saved (uid : N) (request : Request) (m : gmap N Customer.t)
  : gmap N Customer.t :=
  let customer := default Customer.blank (m !! uid) in
  <[uid := Customer.mk
     (POST_get request "phone" (Customer.phone customer))
     (POST_get request "address" (Customer.address customer))
     (POST_get request "city" (Customer.city customer))
     (POST_get request "state" (Customer.state customer))
     (POST_get request "postal_code" (Customer.postal_code customer))
     (POST_get request "country" (Customer.country customer))]> m.

(** Requests to the two cart routes that change the cart. *)
Inductive CartOp :=
  | Add (id : N) (request : Request)
  | Remove (id : N) (request : Request).

Definition run_op (op : CartOp) : M Response :=
  match op with
  | Add id request => add_to_cart request id
  | Remove id request => remove_from_cart request id
  end.




(** The cart after [add_to_cart] went through for the product [prod] of
    id [p] with quantity [q]. *)
Definition cart_after_add (p : N) (prod : Products.t) (q : Z) (c : Cart) : Cart :=
  PyDict.set p
    match PyDict.get p c with
    | Some item => CartItem.with_quantity (CartItem.quantity item + q) item
    | None => CartItem.mk (Products.name prod) (Numeral.str (Products.price prod)) q None
    end c.

(** The quantity the cart holds for [p], none being 0. *)
Definition quantity_in (p : N) (c : Cart) : Z :=
  from_option CartItem.quantity 0 (PyDict.get p c).

(** ** Sample data *)

Module Sample.
Definition product_A : Products.t := Products.mk "A" 1200 "first" 3 None.
Definition product_B : Products.t := Products.mk "B" 500 "second" 1 None.

Definition catalog : gmap N Products.t :=
  <[1%N := product_A]> (<[2%N := product_B]> ∅).

Definition store : DB := mkDB catalog ∅ [] 0.

Definition item_A (q : Z) : CartItem.t := CartItem.mk "A" "10.00" q None.
Definition item_B (q : Z) : CartItem.t := CartItem.mk "B" "5.00" q None.

(** A fresh session, and sessions that hold a cart. *)
Definition fresh : World := mkWorld store (mkSession None false) [].
Definition holding (c : Cart) : World :=
  mkWorld store (mkSession (Some c) false) [].

(** The cart {A: 2 @ 10.00, B: 1 @ 5.00}; product A costs 12.00 by now. *)
Definition cart_AB : Cart := [(1%N, item_A 2); (2%N, item_B 1)].

Definition cart_B2 : Cart := [(2%N, item_B 2)].


(** A store with three orders, the second the newest. *)
Definition order_1 : Order.t := Order.mk 1 7 [1%N] 1000 "pending" 10.
Definition order_2 : Order.t := Order.mk 2 8 [2%N] 500 "shipped" 30.
Definition order_3 : Order.t := Order.mk 3 7 [1%N; 2%N] 1500 "shipped" 20.
Definition archive : World :=
  mkWorld (mkDB catalog ∅ [order_1; order_2; order_3] 3)
    (mkSession None false) [].

Definition visit (uid : option N) : Request := mkRequest GET ∅ ∅ uid 100.
Definition visit_with (key text : string) (uid : option N) : Request :=
  mkRequest GET {[key := text]} ∅ uid 100.
Definition submit (uid : option N) : Request :=
  mkRequest POST ∅ {["city" := "Pune"]} uid 100.
End Sample.

(** ** The other pages (shop/views.py)

    [my_orders], [order_detail], [order_update_status] with its [OrderForm]
    (shop/forms.py), [product_detail], [product_delete] and [product_list].
    The pages they answer with are not among the ones above. *)

Inductive Destination := to_login | to_product_list | to_order_list.

(** [str(id)] for a primary key. *)
Definition str_id (id : N) : string := Numeral.of_digits (Z.of_N id).

(** [order.get_status_display()]: the label of the choice, the value itself
    when it is no choice. *)
Definition status_display (status : string) : string :=
  default status (PyDict.get status Order.status_choices).

Definition Order_with_status (status : string) (o : Order.t) : Order.t :=
  Order.mk (Order.id o) (Order.customer o) (Order.products o)
    (Order.total_amount o) status (Order.created_at o).

Module OrderForm.
(** [OrderForm(instance=order)] and [OrderForm(request.POST, instance=order)]:
    a model form with the one field [status]; [data], when the form is
    bound, is what the request holds under that key. *)
Record t := mk {
  instance : Order.t;
  data : option (option string)
}.

(** [form.cleaned_data['status']] of a valid form: the field is required
    and takes the values of [Order.status_choices]. *)
Definition cleaned (form : t) : option string :=
  match data form with
  | Some (Some status) =>
      if decide (status ∈ Order.status_choices.*1) then Some status else None
  | _ => None
  end.

Definition is_valid (form : t) : bool := bool_decide (is_Some (cleaned form)).
End OrderForm.

Inductive PageContext :=
  | MyOrdersContext (orders : list Order.t)
  | OrderFormContext (form : OrderForm.t) (order : Order.t) (title : string)
  | ProductContext (id : N) (product : Products.t)
  | ProductListContext (products : list (N * Products.t))
      (search_query : option string).

Inductive Reply :=
  | Go (to : Destination)
  | Page (template : string) (context : PageContext).

(** [@login_required(login_url='login')] over these pages. *)
Definition login_required_page (view : N → Request → M Reply) (request : Request)
  : M Reply :=
  match user request with
  | Some uid => view uid request
  | None => mret (Go to_login)
  end.

(** [customer.orders.all().order_by('-created_at')] for the profile of the
    user, [[]] when [request.user.customer_profile] raises. *)
Definition my_orders_view (uid : N) (request : Request) : M Reply :=
  profile ← gets (λ w, Customer_objects (db w) !! uid);
  orders ← match profile with
            | Some _ =>
                gets (λ w, order_by_created_at_desc
                             (filter (λ o, Order.customer o = uid)
                                (Order_objects (db w))))
            | None => mret []
            end;
  mret (Page "shop/my_orders.html" (MyOrdersContext orders)).

Definition my_orders : Request → M Reply := login_required_page my_orders_view.

Definition order_detail (request : Request) (id : N) : M Response :=
  order ← get_order_or_404 id;
  mret (Render "shop/order/order_detail.html" (OrderContext order)).

Definition order_update_status (request : Request) (id : N) : M Reply :=
  order ← get_order_or_404 id;
  let title := "Update Order #" +:+ str_id (Order.id order) in
  match method request with
  | POST =>
      let form := OrderForm.mk order (Some (POST_params request !! "status")) in
      match OrderForm.cleaned form with
      | Some status =>
          Order_update (Order.id order) (λ _, Order_with_status status order);;
          messages_add SUCCESS
            ("Order #" +:+ str_id (Order.id order) +:+ " status updated to "
               +:+ status_display status +:+ "!");;
          mret (Go to_order_list)
      | None =>
          mret (Page "shop/order/order_form.html"
                  (OrderFormContext form order title))
      end
  | GET =>
      mret (Page "shop/order/order_form.html"
              (OrderFormContext (OrderForm.mk order None) order title))
  end.

Definition product_detail (request : Request) (id : N) : M Reply :=
  product ← get_product_or_404 id;
  mret (Page "shop/product_detail.html" (ProductContext id product)).

(** [product.delete()]: the row goes, and with it the rows of the
    many-to-many table that link it to orders; the orders stay. *)
Definition Order_unlink (pid : N) (o : Order.t) : Order.t :=
  Order.mk (Order.id o) (Order.customer o)
    (filter (λ k, k ≠ pid) (Order.products o))
    (Order.total_amount o) (Order.status o) (Order.created_at o).

Definition Products_delete (id : N) : M unit :=
  with_db (λ d, mkDB (delete id (Products_objects d)) (Customer_objects d)
                     (Order_unlink id <$> Order_objects d) (Order_last_id d)).

Definition product_delete (request : Request) (id : N) : M Reply :=
  product ← get_product_or_404 id;
  match method request with
  | POST =>
      Products_delete id;;
      messages_add SUCCESS "Product deleted successfully!";;
      mret (Go to_product_list)
  | GET =>
      mret (Page "shop/product/product_confirm_delete.html"
              (ProductContext id product))
  end.

(** [q] occurs in [s]. *)
Fixpoint starts_with (q s : string) : bool :=
  match q, s with
  | EmptyString, _ => true
  | String a q', String b s' => bool_decide (a = b) && starts_with q' s'
  | String _ _, EmptyString => false
  end.

Fixpoint occurs_in (q s : string) : bool :=
  starts_with q s
  || match s with
     | EmptyString => false
     | String _ s' => occurs_in q s'
     end.

(** [field__icontains=q]: the database compares under its case folding
    [fold], which the views do not choose. *)
Definition icontains (fold : string → string) (q s : string) : bool :=
  occurs_in (fold q) (fold s).

Definition product_list (fold : string → string) (request : Request) : M Reply :=
  products ← gets (λ w, map_to_list (Products_objects (db w)));
  let search_query := GET_params request !! "search" in
  let products :=
    match search_query with
    | Some q =>
        if decide (q = "") then products
        else filter (λ row, icontains fold q (Products.name row.2)
                            || icontains fold q (Products.description row.2))
               products
    | None => products
    end in
  mret (Page "shop/product/product_list.html"
          (ProductListContext products search_query)).

(** Upper-case ASCII letters to lower case, the folding of SQLite's [LIKE]. *)
Definition ascii_lower (a : ascii) : ascii :=
  let code := N_of_ascii a in
  if decide (65 ≤ code ≤ 90)%N then ascii_of_N (code + 32) else a.

Fixpoint lower (s : string) : string :=
  match s with
  | EmptyString => EmptyString
  | String a r => String (ascii_lower a) (lower r)
  end.

(** The ids of the stored orders. *)
Definition order_ids (d : DB) : list N := Order.id <$> Order_objects d.

(** More sample data: the store of [Sample.archive] with a profile for
    user 7, and the requests of the order desk. *)
Module Desk.
Definition registered : World :=
  mkWorld (mkDB Sample.catalog {[7%N := Customer.blank]}
             [Sample.order_1; Sample.order_2; Sample.order_3] 3)
    (mkSession (Some Sample.cart_AB) false) [].

Definition set_status (status : string) : Request :=
  mkRequest POST ∅ {["status" := status]} None 200.

Definition confirm_delete : Request := mkRequest POST ∅ ∅ None 200.
End Desk.

(** * Properties *)

(** ** Numerals: [float(str(d))] gives the amount back *)

Section NumeralFacts.
Import Numeral.

Lemma digit_of_ascii_of_digit d :
  0 ≤ d < 10 → digit_of_ascii (ascii_of_digit d) = Some d.
Proof.
  intros Hd.
  assert (d = 0 ∨ d = 1 ∨ d = 2 ∨ d = 3 ∨ d = 4
          ∨ d = 5 ∨ d = 6 ∨ d = 7 ∨ d = 8 ∨ d = 9) as Hcases by lia.
  repeat (destruct Hcases as [-> | Hcases]; [reflexivity |]).
  by subst.
Qed.

Lemma to_uint_not_Nil n : N.to_uint n ≠ Nil.
Proof.
  intros Hnil. pose proof (Unsigned.of_to n) as Hn.
  rewrite Hnil in Hn. simpl in Hn. subst n. discriminate.
Qed.

Lemma digits_of_digits n : 0 ≤ n → digits (of_digits n) = Some n.
Proof.
  intros Hn. unfold digits, of_digits.
  destruct (NilEmpty.string_of_uint (N.to_uint (Z.to_N n))) eqn:Hs.
  - destruct (N.to_uint (Z.to_N n)) eqn:Hu; try discriminate.
    by apply to_uint_not_Nil in Hu.
  - rewrite <- Hs, NilEmpty.usu. simpl.
    by rewrite Unsigned.of_to, Z2N.id.
Qed.

Lemma split_dot_numeral d r :
  split_dot (NilEmpty.string_of_uint d +:+ String "." r)
  = Some (NilEmpty.string_of_uint d, r).
Proof. induction d; simpl; [done | by rewrite IHd ..]. Qed.

Lemma float_unsigned n r :
  float (of_digits n +:+ String "." r)
  = cents_unsigned (of_digits n +:+ String "." r).
Proof. unfold of_digits. by destruct (N.to_uint (Z.to_N n)). Qed.

Lemma cents_unsigned_str a :
  0 ≤ a →
  cents_unsigned
    (of_digits (a / 100)
       +:+ String "." (String (ascii_of_digit (a mod 100 / 10))
                         (String (ascii_of_digit (a mod 10)) EmptyString)))
  = Some a.
Proof.
  intros Ha. unfold cents_unsigned, of_digits.
  rewrite split_dot_numeral.
  fold (of_digits (a / 100)).
  rewrite digits_of_digits by (apply Z.div_pos; lia).
  rewrite !digit_of_ascii_of_digit.
  - f_equal. pose proof (Z.div_mod a 100). pose proof (Z.div_mod (a mod 100) 10).
    assert (a mod 100 mod 10 = a mod 10) as Hmm.
    { replace 100 with (10 * 10) by lia. rewrite Z.rem_mul_r by lia.
      rewrite Z.mul_comm, Z.mod_add by lia. by rewrite Z.mod_mod by lia. }
    lia.
  - apply Z.mod_pos_bound; lia.
  - pose proof (Z.mod_pos_bound a 100).
    split; [apply Z.div_pos; lia | apply Z.div_lt_upper_bound; lia].
Qed.

(** Reading a price snapshot gives the price it was taken from. *)
Lemma float_str c : float (str c) = Some c.
Proof.
  unfold str. case_decide as Hc.
  - change (Z.opp <$> cents_unsigned
              (of_digits (Z.abs c / 100)
               +:+ String "." (String (ascii_of_digit (Z.abs c mod 100 / 10))
                                 (String (ascii_of_digit (Z.abs c mod 10)) EmptyString)))
            = Some c).
    rewrite cents_unsigned_str by lia. simpl. f_equal. lia.
  - change (float
              (of_digits (Z.abs c / 100)
               +:+ String "." (String (ascii_of_digit (Z.abs c mod 100 / 10))
                                 (String (ascii_of_digit (Z.abs c mod 10)) EmptyString)))
            = Some c).
    rewrite float_unsigned, cents_unsigned_str by lia. f_equal. lia.
Qed.
Example str_1000 : str 1000 = "10.00".
Proof. reflexivity. Qed.

Example str_negative : str (-1205) = "-12.05".
Proof. reflexivity. Qed.

Example float_text : float "abc" = None.
Proof. reflexivity. Qed.

Example int_negative : int "-3" = Some (-3).
Proof. reflexivity. Qed.

Example int_text : int "many" = None.
Proof. reflexivity. Qed.
End NumeralFacts.

(** ** Dictionaries *)

Section PyDictFacts.
Context {K V : Type} `{EqDecision K}.
Implicit Types (k : K) (v : V) (d : PyDict.t K V).

Lemma get_None k d : PyDict.get k d = None ↔ k ∉ PyDict.keys d.
Proof.
  induction d as [|[k' v'] d IH]; simpl.
  - split; [intros _; apply not_elem_of_nil | done].
  - rewrite not_elem_of_cons. case_decide as Hk.
    + split; [done | by intros [? _]].
    + rewrite IH. split; [by intros ?; split; [congruence |] | by intros [_ ?]].
Qed.

Lemma get_Some_keys k v d : PyDict.get k d = Some v → k ∈ PyDict.keys d.
Proof.
  intros Hget. destruct (decide (k ∈ PyDict.keys d)) as [|Hn]; [done |].
  apply get_None in Hn. congruence.
Qed.


Lemma get_set_eq k v d : PyDict.get k (PyDict.set k v d) = Some v.
Proof.
  induction d as [|[k' v'] d IH]; simpl; repeat (case_decide; simpl); congruence.
Qed.

Lemma get_set_ne k k' v d :
  k ≠ k' → PyDict.get k' (PyDict.set k v d) = PyDict.get k' d.
Proof.
  intros Hne. induction d as [|[k0 v0] d IH]; simpl;
    repeat (case_decide; simpl); congruence.
Qed.

Lemma set_set k v v' d :
  PyDict.set k v' (PyDict.set k v d) = PyDict.set k v' d.
Proof.
  induction d as [|[k0 v0] d IH]; simpl;
    repeat (case_decide; simpl); congruence.
Qed.

Lemma set_middle k v v0 d1 d2 :
  k ∉ PyDict.keys d1 →
  PyDict.set k v (d1 ++ (k, v0) :: d2) = d1 ++ (k, v) :: d2.
Proof.
  induction d1 as [|[k1 v1] d1 IH]; simpl.
  - intros _. by rewrite decide_True.
  - rewrite not_elem_of_cons. intros [Hne Hd1].
    rewrite decide_False by done. by rewrite IH.
Qed.

Lemma set_absent k v d : PyDict.get k d = None → PyDict.set k v d = d ++ [(k, v)].
Proof.
  induction d as [|[k' v'] d IH]; simpl; [done |].
  case_decide; [done |]. intros Hget. by rewrite IH.
Qed.

Lemma keys_set_present k v d :
  is_Some (PyDict.get k d) → PyDict.keys (PyDict.set k v d) = PyDict.keys d.
Proof.
  induction d as [|[k' v'] d IH]; simpl; [by intros [? ?] |].
  case_decide; simpl; [by subst |]. intros Hs. f_equal. by apply IH.
Qed.

Lemma wf_set k v d : PyDict.wf d → PyDict.wf (PyDict.set k v d).
Proof.
  unfold PyDict.wf. intros Hwf.
  destruct (PyDict.get k d) as [v0|] eqn:Hget.
  - by rewrite keys_set_present.
  - rewrite set_absent by done. unfold PyDict.keys. rewrite fmap_app. simpl.
    apply NoDup_app. split_and!; [done | | apply NoDup_singleton].
    intros x Hx ->%list_elem_of_singleton. by apply get_None in Hget.
Qed.

Lemma del_absent k d : PyDict.get k d = None → PyDict.del k d = d.
Proof.
  induction d as [|[k' v'] d IH]; simpl; [done |].
  case_decide; [done |]. intros Hget. by rewrite IH.
Qed.

Lemma keys_del_subseteq k d : PyDict.keys (PyDict.del k d) ⊆ PyDict.keys d.
Proof.
  induction d as [|[k' v'] d IH]; simpl; [done |].
  case_decide; simpl.
  - intros x Hx. by right.
  - intros x [-> | Hx]%elem_of_cons; [left | right; by apply IH].
Qed.

Lemma wf_del k d : PyDict.wf d → PyDict.wf (PyDict.del k d).
Proof.
  unfold PyDict.wf. induction d as [|[k' v'] d IH]; simpl; [done |].
  rewrite NoDup_cons. intros [Hk' Hd]. case_decide; simpl; [done |].
  apply NoDup_cons. split; [| by apply IH].
  intros Hin. by apply keys_del_subseteq in Hin.
Qed.

Lemma get_del_eq k d : PyDict.wf d → PyDict.get k (PyDict.del k d) = None.
Proof.
  unfold PyDict.wf. induction d as [|[k' v'] d IH]; simpl; [done |].
  rewrite NoDup_cons. intros [Hk' Hd]. case_decide; simpl.
  - subst. by apply get_None.
  - case_decide; [done | by apply IH].
Qed.

Lemma get_del_ne k k' d :
  k ≠ k' → PyDict.get k' (PyDict.del k d) = PyDict.get k' d.
Proof.
  intros Hne. induction d as [|[k0 v0] d IH]; simpl; [done |].
  repeat (case_decide; simpl); congruence.
Qed.

Lemma count_absent k d : k ∉ PyDict.keys d → PyDict.count k d = 0%nat.
Proof.
  unfold PyDict.count. induction d as [|[k' v'] d IH]; [done |].
  rewrite filter_cons. simpl. rewrite not_elem_of_cons. intros [Hne Hd].
  case_decide; [congruence | by apply IH].
Qed.

Lemma count_present k d :
  PyDict.wf d → k ∈ PyDict.keys d → PyDict.count k d = 1%nat.
Proof.
  unfold PyDict.wf, PyDict.count. induction d as [|[k' v'] d IH].
  - by intros _ ?%elem_of_nil.
  - rewrite filter_cons. simpl. rewrite NoDup_cons, elem_of_cons.
    intros [Hk' Hd] Hin. case_decide as Heq; simpl.
    + subst. f_equal. by apply count_absent.
    + destruct Hin as [-> | Hin]; [done | by apply IH].
Qed.


End PyDictFacts.

(** ** Running the views *)

Ltac unfold_monad :=
  unfold mbind, M_bind, mret, M_ret, gets, modify, raise, or_raise,
    with_db, with_session, messages_add, session_set_cart, cart_mutate,
    session_mark_modified, session_get_cart in *.

Section CartFacts.
Implicit Types (w : World) (r : Request) (p : N) (c : Cart).

Lemma session_cart_mk d c m msgs :
  session_cart (mkWorld d (mkSession (Some c) m) msgs) = c.
Proof. done. Qed.

Lemma add_to_cart_ok w r p prod q :
  Products_objects (db w) !! p = Some prod →
  quantity_of r = Some q →
  add_to_cart r p w
  = (Ok (Redirect cart_page),
     mkWorld (db w)
       (mkSession (Some (cart_after_add p prod q (session_cart w))) true)
       (messages w ++ [(SUCCESS, Products.name prod +:+ " added to cart!")])).
Proof.
  intros Hprod Hq. destruct w as [d [[c|] m] msgs];
    unfold add_to_cart, get_product_or_404, quantity_param, cart_after_add,
      session_cart; unfold_monad; simpl in *; rewrite Hprod, Hq; simpl;
    [by destruct (PyDict.get p c) | done].
Qed.

Lemma add_to_cart_404 w r p :
  Products_objects (db w) !! p = None →
  (add_to_cart r p w).1 = Raise Http404
  ∧ session_cart (add_to_cart r p w).2 = session_cart w
  ∧ db (add_to_cart r p w).2 = db w.
Proof.
  intros Hprod. destruct w as [d [[c|] m] msgs];
    unfold add_to_cart, get_product_or_404, session_cart; unfold_monad;
    simpl in *; by rewrite Hprod.
Qed.

Lemma add_to_cart_ValueError w r p :
  quantity_of r = None →
  session_cart (add_to_cart r p w).2 = session_cart w
  ∧ db (add_to_cart r p w).2 = db w
  ∧ ∃ e, (add_to_cart r p w).1 = Raise e.
Proof.
  intros Hq. destruct w as [d [[c|] m] msgs];
    unfold add_to_cart, get_product_or_404, quantity_param, session_cart;
    unfold_monad; simpl in *; rewrite Hq;
    destruct (Products_objects d !! p); simpl; eauto.
Qed.

Lemma remove_from_cart_absent w r p :
  PyDict.get p (session_cart w) = None →
  remove_from_cart r p w = (Ok (Redirect cart_page), w).
Proof.
  destruct w as [d [[c|] m] msgs]; unfold remove_from_cart, session_cart;
    unfold_monad; simpl; [| done]. by intros ->.
Qed.

Lemma remove_from_cart_present w r p item :
  PyDict.get p (session_cart w) = Some item →
  remove_from_cart r p w
  = (Ok (Redirect cart_page),
     mkWorld (db w)
       (mkSession (Some (PyDict.del p (session_cart w))) true)
       (messages w ++ [(SUCCESS, CartItem.name item +:+ " removed from cart!")])).
Proof.
  destruct w as [d [[c|] m] msgs]; unfold remove_from_cart, session_cart;
    unfold_monad; simpl; [| done]. by intros ->.
Qed.

Lemma run_op_cart w op :
  session_cart (run_op op w).2 = session_cart w
  ∨ (∃ p r, op = Remove p r
            ∧ session_cart (run_op op w).2 = PyDict.del p (session_cart w))
  ∨ (∃ p r prod q, op = Add p r ∧ quantity_of r = Some q
            ∧ session_cart (run_op op w).2
              = cart_after_add p prod q (session_cart w)).
Proof.
  destruct op as [p r | p r]; simpl.
  - destruct (Products_objects (db w) !! p) as [prod|] eqn:Hprod.
    + destruct (quantity_of r) as [q|] eqn:Hq.
      * right; right. exists p, r, prod, q.
        by rewrite (add_to_cart_ok _ _ _ _ _ Hprod Hq).
      * left. by apply add_to_cart_ValueError.
    + left. by apply add_to_cart_404.
  - destruct (PyDict.get p (session_cart w)) as [item|] eqn:Hget.
    + right; left. exists p, r.
      by rewrite (remove_from_cart_present _ _ _ _ Hget).
    + left. by rewrite remove_from_cart_absent.
Qed.
End CartFacts.

(** ** The cart: adding and removing *)

Ltac by_compute := apply (bool_decide_unpack _); vm_compute; exact I.

Section CartClaims.
Implicit Types (w : World) (r : Request) (p : N) (c : Cart).

Lemma quantity_in_after_add p prod q c :
  quantity_in p (cart_after_add p prod q c) = quantity_in p c + q.
Proof.
  unfold quantity_in, cart_after_add. rewrite get_set_eq.
  by destruct (PyDict.get p c).
Qed.

Lemma count_after_add p prod q c :
  PyDict.wf c → PyDict.count p (cart_after_add p prod q c) = 1%nat.
Proof.
  intros Hwf. apply count_present; [by apply wf_set |].
  eapply get_Some_keys, get_set_eq.
Qed.

Lemma cart_after_add_absent p prod q c :
  PyDict.get p c = None →
  cart_after_add p prod q c
  = c ++ [(p, CartItem.mk (Products.name prod)
                (Numeral.str (Products.price prod)) q None)].
Proof. intros Hget. unfold cart_after_add. rewrite Hget. by apply set_absent. Qed.

Lemma cart_after_add_twice p prod q1 q2 c :
  PyDict.get p c = None →
  cart_after_add p prod q2 (cart_after_add p prod q1 c)
  = c ++ [(p, CartItem.mk (Products.name prod)
                (Numeral.str (Products.price prod)) (q1 + q2) None)].
Proof.
  intros Hget. unfold cart_after_add.
  rewrite get_set_eq, Hget, set_set. simpl. by apply set_absent.
Qed.

(** C5, as the code has it: two [add_to_cart] requests for a product of
    the catalog both go through and leave one entry for it, whose quantity
    is what the cart held for the product before (nothing, for a product
    not yet in the cart) plus q1 + q2; and the first request for a product
    not yet in the cart adds, at the end, an entry with the product's name,
    the text of its price (which reads back as that price) and q1. *)
Theorem add_to_cart_twice w r1 r2 p prod q1 q2 :
  PyDict.wf (session_cart w) →
  Products_objects (db w) !! p = Some prod →
  quantity_of r1 = Some q1 →
  quantity_of r2 = Some q2 →
  (add_to_cart r1 p w).1 = Ok (Redirect cart_page)
  ∧ (add_to_cart r2 p (add_to_cart r1 p w).2).1 = Ok (Redirect cart_page)
  ∧ PyDict.count p (session_cart (add_to_cart r2 p (add_to_cart r1 p w).2).2) = 1%nat
  ∧ quantity_in p (session_cart (add_to_cart r2 p (add_to_cart r1 p w).2).2)
    = quantity_in p (session_cart w) + q1 + q2
  ∧ (PyDict.get p (session_cart w) = None →
     session_cart (add_to_cart r1 p w).2
     = session_cart w
         ++ [(p, CartItem.mk (Products.name prod)
                   (Numeral.str (Products.price prod)) q1 None)]
     ∧ Numeral.float (Numeral.str (Products.price prod)) = Some (Products.price prod)
     ∧ session_cart (add_to_cart r2 p (add_to_cart r1 p w).2).2
       = session_cart w
           ++ [(p, CartItem.mk (Products.name prod)
                     (Numeral.str (Products.price prod)) (q1 + q2) None)]).
Proof.
  intros Hwf Hprod Hq1 Hq2.
  rewrite (add_to_cart_ok w r1 p prod q1 Hprod Hq1). simpl.
  rewrite (add_to_cart_ok _ r2 p prod q2) by done. simpl.
  rewrite !session_cart_mk.
  split_and!; [done | done | | |].
  - apply count_after_add. by apply wf_set.
  - rewrite !quantity_in_after_add. lia.
  - intros Hget. split_and!.
    + by apply cart_after_add_absent.
    + apply float_str.
    + by apply cart_after_add_twice.
Qed.

Lemma add_to_cart_twice_witness :
  PyDict.wf (session_cart (Sample.holding [(2%N, Sample.item_B 1)]))
  ∧ quantity_in 1
      (session_cart
         (add_to_cart (Sample.visit None) 1
            (add_to_cart (Sample.visit_with "quantity" "3" None) 1
               (Sample.holding [(2%N, Sample.item_B 1)])).2).2)
    = 0 + 3 + 1.
Proof.
  split; [by_compute |].
  apply (add_to_cart_twice (Sample.holding [(2%N, Sample.item_B 1)])
           (Sample.visit_with "quantity" "3" None) (Sample.visit None) 1
           Sample.product_A 3 1); [by_compute | reflexivity ..].
Defined.

(** C5 as written fails for a cart that already holds the product: with
    5 of A in the cart, adding 1 and then 2 leaves 8, not 3. *)
Lemma add_to_cart_twice_counterexample :
  Products_objects (db (Sample.holding [(1%N, Sample.item_A 5)])) !! 1%N
  = Some Sample.product_A
  ∧ quantity_of (Sample.visit None) = Some 1
  ∧ quantity_of (Sample.visit_with "quantity" "2" None) = Some 2
  ∧ ¬ (quantity_in 1
         (session_cart
            (add_to_cart (Sample.visit_with "quantity" "2" None) 1
               (add_to_cart (Sample.visit None) 1
                  (Sample.holding [(1%N, Sample.item_A 5)])).2).2)
       = 1 + 2).
Proof. split_and!; [reflexivity .. |]. vm_compute. discriminate. Qed.

(** The cart stays a dictionary through the cart requests. *)
Lemma run_op_wf op w :
  PyDict.wf (session_cart w) → PyDict.wf (session_cart (run_op op w).2).
Proof.
  intros Hwf.
  destruct (run_op_cart w op)
    as [-> | [(p & r & -> & ->) | (p & r & prod & q & -> & Hq & ->)]].
  - done.
  - by apply wf_del.
  - by apply wf_set.
Qed.






(** C8: [remove_from_cart] for a product the cart does not hold answers
    with the redirect and changes nothing; for one it holds, the entry is
    gone afterwards and every other entry is as before; a second
    [remove_from_cart] for the same product changes nothing more. *)
Theorem remove_from_cart_idempotent w r r' p :
  PyDict.wf (session_cart w) →
  (PyDict.get p (session_cart w) = None →
   remove_from_cart r p w = (Ok (Redirect cart_page), w))
  ∧ (remove_from_cart r p w).1 = Ok (Redirect cart_page)
  ∧ PyDict.get p (session_cart (remove_from_cart r p w).2) = None
  ∧ (∀ k, k ≠ p →
       PyDict.get k (session_cart (remove_from_cart r p w).2)
       = PyDict.get k (session_cart w))
  ∧ remove_from_cart r' p (remove_from_cart r p w).2
    = (Ok (Redirect cart_page), (remove_from_cart r p w).2).
Proof.
  intros Hwf. split; [apply remove_from_cart_absent |].
  destruct (PyDict.get p (session_cart w)) as [item|] eqn:Hget.
  - rewrite (remove_from_cart_present _ r _ _ Hget). simpl.
    rewrite session_cart_mk. split_and!; [done | by apply get_del_eq | |].
    + intros k Hk. by apply get_del_ne.
    + apply remove_from_cart_absent. rewrite session_cart_mk.
      by apply get_del_eq.
  - rewrite (remove_from_cart_absent _ r _ Hget). simpl.
    split_and!; [done | done | done |]. by apply remove_from_cart_absent.
Qed.

Lemma remove_from_cart_idempotent_witness :
  PyDict.wf (session_cart (Sample.holding Sample.cart_AB))
  ∧ session_cart
      (remove_from_cart (Sample.visit None) 1
         (remove_from_cart (Sample.visit None) 1
            (Sample.holding Sample.cart_AB)).2).2
    = [(2%N, Sample.item_B 1)].
Proof.
  split; [by_compute |].
  destruct (remove_from_cart_idempotent (Sample.holding Sample.cart_AB)
              (Sample.visit None) (Sample.visit None) 1)
    as (_ & _ & _ & _ & ->); [by_compute | reflexivity].
Defined.
End CartClaims.

(** ** The cart page *)

Section CartViewFacts.
Implicit Types (w : World) (r : Request) (c : Cart).

Lemma snapshot_total_cons k item c t :
  snapshot_total ((k, item) :: c) = Some t ↔
  ∃ x t', line_total item = Some x ∧ snapshot_total c = Some t' ∧ t = x + t'.
Proof.
  simpl. unfold line_total.
  destruct (Numeral.float (CartItem.price item)) as [p|]; simpl.
  - destruct (snapshot_total c) as [t'|]; simpl.
    + split.
      * intros [= <-]. by exists (p * CartItem.quantity item), t'.
      * intros (x & t0 & [= <-] & [= <-] & ->). done.
    + split; [done | by intros (x & t0 & _ & [=] & _)].
  - split; [done | by intros (x & t0 & [=] & _)].
Qed.

Lemma cart_view_loop d m msgs done c t t0 ls :
  PyDict.wf (done ++ c) →
  snapshot_total c = Some t →
  for_fold cart_view_step (t0, ls) c
    (mkWorld d (mkSession (Some (done ++ c)) m) msgs)
  = (Ok (t0 + t, ls ++ cart_lines c),
     mkWorld d (mkSession (Some (done ++ stamped c)) m) msgs).
Proof.
  revert done t t0 ls. induction c as [|[k item] c IH]; intros done t t0 ls Hwf Ht.
  - simpl in *. simplify_eq. unfold_monad.
    by rewrite Z.add_0_r, !app_nil_r.
  - apply snapshot_total_cons in Ht as (x & t' & Hx & Ht' & ->).
    assert (k ∉ PyDict.keys done) as Hk.
    { unfold PyDict.wf, PyDict.keys in *. rewrite fmap_app in Hwf.
      apply NoDup_app in Hwf as (_ & Hdisj & _).
      intros Hin. apply (Hdisj _ Hin). simpl. left. }
    simpl. unfold cart_view_step at 1. unfold_monad. simpl.
    unfold line_total in Hx.
    destruct (Numeral.float (CartItem.price item)) as [p|] eqn:Hp;
      simpl in *; [| done]. simplify_eq.
    rewrite set_middle by done.
    set (item' := CartItem.with_total (p * CartItem.quantity item) item).
    replace (done ++ (k, item') :: c) with ((done ++ [(k, item')]) ++ c)
      by (by rewrite <- (assoc_L (++))).
    rewrite (IH (done ++ [(k, item')]) t'); [| | done].
    + assert (line_total item = Some (p * CartItem.quantity item)) as Hline
        by (unfold line_total; by rewrite Hp).
      unfold cart_lines. simpl. rewrite Hline. simpl. fold item'.
      rewrite <- !(assoc_L (++)). simpl.
      by rewrite Z.add_assoc.
    + unfold PyDict.wf, PyDict.keys in *.
      by rewrite <- (assoc_L (++)), !fmap_app in *.
Qed.

(** What [cart_view] does on a cart whose snapshots are amounts: the page
    lists every entry with its line total and the sum of them, and every
    entry of the session's cart has the key ['total'] from then on. *)
Lemma cart_view_ok d c m msgs r t :
  PyDict.wf c →
  snapshot_total c = Some t →
  cart_view r (mkWorld d (mkSession (Some c) m) msgs)
  = (Ok (Render "shop/cart.html" (CartContext (cart_lines c) t)),
     mkWorld d (mkSession (Some (stamped c)) m) msgs).
Proof.
  intros Hwf Ht.
  pose proof (cart_view_loop d m msgs [] c t 0 [] Hwf Ht) as Hloop.
  unfold cart_view, session_get_cart, gets, mbind, M_bind. simpl in *.
  by rewrite Hloop.
Qed.

Lemma stamped_keys c : PyDict.keys (stamped c) = PyDict.keys c.
Proof.
  unfold PyDict.keys, stamped. rewrite <- list_fmap_compose.
  by apply list_fmap_ext.
Qed.

Lemma stamped_total k item c x :
  (k, item) ∈ c → line_total item = Some x →
  (k, CartItem.with_total x item) ∈ stamped c.
Proof.
  intros Hin Hx. unfold stamped. apply list_elem_of_fmap.
  exists (k, item). simpl. by rewrite Hx.
Qed.

(** C7 at a failing input: viewing the cart {A: 2 @ 10.00, B: 1 @ 5.00}
    shows the line totals 20.00 and 5.00 and the sum 25.00, and leaves
    the session's cart with a key ['total'] in both entries, which it did
    not have before. *)
Theorem cart_view_writes_session :
  cart_view (Sample.visit None) (Sample.holding Sample.cart_AB)
  = (Ok (Render "shop/cart.html"
           (CartContext
              [mkLine 1 (CartItem.mk "A" "10.00" 2 (Some 2000));
               mkLine 2 (CartItem.mk "B" "5.00" 1 (Some 500))]
              2500)),
     mkWorld Sample.store
       (mkSession
          (Some [(1%N, CartItem.mk "A" "10.00" 2 (Some 2000));
                 (2%N, CartItem.mk "B" "5.00" 1 (Some 500))])
          false)
       [])
  ∧ session_cart (cart_view (Sample.visit None) (Sample.holding Sample.cart_AB)).2
    ≠ session_cart (Sample.holding Sample.cart_AB).
Proof.
  assert (PyDict.wf Sample.cart_AB) as Hwf by by_compute.
  unfold Sample.holding.
  rewrite (cart_view_ok _ _ _ _ _ 2500 Hwf) by reflexivity.
  split; [reflexivity | discriminate].
Qed.
End CartViewFacts.

(** ** Checkout *)

Section CheckoutFacts.
Implicit Types (w : World) (r : Request) (c : Cart) (d : DB).
Implicit Types (m : gmap N Products.t) (ks : list N).

Lemma for_each_app {A} (body : A → M unit) (xs ys : list A) w :
  for_each body (xs ++ ys) w
  = match for_each body xs w with
    | (Ok _, w') => for_each body ys w'
    | (Raise e, w') => (Raise e, w')
    end.
Proof.
  revert w. induction xs as [|x xs IH]; intros w; [done |].
  unfold for_each in *. simpl. unfold mbind, M_bind.
  destruct (body x w) as [[[]|e] w']; [apply IH | done].
Qed.

Lemma for_fold_cons {A B} (body : B → A → M B) acc x xs w :
  for_fold body acc (x :: xs) w
  = match body acc x w with
    | (Ok acc', w') => for_fold body acc' xs w'
    | (Raise e, w') => (Raise e, w')
    end.
Proof. done. Qed.

Lemma checkout_total_step_run t0 k item w :
  checkout_total_step t0 (k, item) w
  = (match Numeral.float (CartItem.price item) with
     | Some p => Ok (t0 + p * CartItem.quantity item)
     | None => Raise ValueError
     end, w).
Proof.
  unfold checkout_total_step. unfold_monad. simpl.
  by destruct (Numeral.float (CartItem.price item)).
Qed.

Lemma checkout_total_loop c t0 w :
  for_fold checkout_total_step t0 c w
  = (match snapshot_total c with
     | Some t => Ok (t0 + t)
     | None => Raise ValueError
     end, w).
Proof.
  revert t0. induction c as [|[k item] c IH]; intros t0.
  - simpl. unfold_monad. by rewrite Z.add_0_r.
  - rewrite for_fold_cons, checkout_total_step_run. simpl.
    destruct (Numeral.float (CartItem.price item)) as [p|]; simpl; [| done].
    rewrite IH. destruct (snapshot_total c) as [t|]; simpl; [| done].
    by rewrite Z.add_assoc.
Qed.

Lemma checkout_customer_run uid r d s msgs :
  checkout_customer uid r (mkWorld d s msgs)
  = (Ok tt,
     mkWorld (mkDB (Products_objects d)
                (profile_saved uid r (Customer_objects d))
                (Order_objects d) (Order_last_id d)) s msgs).
Proof.
  unfold checkout_customer, Customer_save, profile_saved. unfold_monad. simpl.
  destruct (Customer_objects d !! uid) as [cu|]; simpl; [done |].
  unfold modify. simpl. by rewrite insert_insert_eq.
Qed.

Lemma take_stock_dom c ks m k :
  is_Some (take_stock c ks m !! k) ↔ is_Some (m !! k).
Proof.
  revert m. induction ks as [|k0 ks IH]; intros m; [done |].
  unfold take_stock in *. simpl. rewrite IH.
  destruct (m !! k0) as [p0|] eqn:Hk0; [| done].
  destruct (PyDict.get k0 c); [| done].
  destruct (decide (k0 = k)) as [-> | Hne].
  - rewrite lookup_insert_eq, Hk0. by split; eauto.
  - by rewrite lookup_insert_ne.
Qed.



Lemma relink_cons oid k ks rows :
  relink oid (k :: ks) rows
  = relink oid ks
      ((λ o, if decide (Order.id o = oid) then Order.products_add k o else o)
         <$> rows).
Proof.
  unfold relink. rewrite <- list_fmap_compose. apply list_fmap_ext.
  intros _ o _. simpl. case_decide as Hid; simpl.
  - by rewrite decide_True.
  - by rewrite decide_False.
Qed.

Lemma relink_nil oid rows : relink oid [] rows = rows.
Proof.
  unfold relink. rewrite <- (list_fmap_id rows) at 2. apply list_fmap_ext.
  intros _ o _. simpl. by case_decide.
Qed.

Lemma for_each_cons {A} (body : A → M unit) x xs w :
  for_each body (x :: xs) w
  = match body x w with
    | (Ok _, w') => for_each body xs w'
    | (Raise e, w') => (Raise e, w')
    end.
Proof.
  unfold for_each. rewrite for_fold_cons.
  by destruct (body x w) as [[[]|e] w'].
Qed.

Lemma checkout_product_step_ok oid c k p item d s msgs :
  Products_objects d !! k = Some p →
  PyDict.get k c = Some item →
  checkout_product_step oid c k (mkWorld d s msgs)
  = (Ok tt,
     mkWorld
       (mkDB (<[k := Products.with_stock
                        (Products.stock p - CartItem.quantity item) p]>
                (Products_objects d))
             (Customer_objects d)
             ((λ o, if decide (Order.id o = oid)
                    then Order.products_add k o else o) <$> Order_objects d)
             (Order_last_id d))
       s msgs).
Proof.
  intros Hp Hitem.
  unfold checkout_product_step, Products_get, Order_update, Products_save.
  unfold_monad. simpl. rewrite Hp. simpl. by rewrite Hitem.
Qed.

Lemma checkout_product_step_missing oid c k w :
  Products_objects (db w) !! k = None →
  checkout_product_step oid c k w = (Raise DoesNotExist, w).
Proof.
  intros Hp. unfold checkout_product_step, Products_get. unfold_monad.
  simpl. by rewrite Hp.
Qed.

Lemma checkout_product_loop_ok oid c ks d s msgs :
  Forall (λ k, is_Some (Products_objects d !! k) ∧ is_Some (PyDict.get k c)) ks →
  for_each (checkout_product_step oid c) ks (mkWorld d s msgs)
  = (Ok tt,
     mkWorld
       (mkDB (take_stock c ks (Products_objects d)) (Customer_objects d)
             (relink oid ks (Order_objects d)) (Order_last_id d))
       s msgs).
Proof.
  revert d. induction ks as [|k ks IH]; intros d Hks.
  - rewrite relink_nil. by destruct d.
  - apply Forall_cons in Hks as [[[p Hp] [item Hitem]] Hks].
    rewrite for_each_cons, (checkout_product_step_ok _ _ _ _ _ _ _ _ Hp Hitem).
    rewrite IH.
    + simpl. rewrite relink_cons. unfold take_stock. simpl.
      by rewrite Hp, Hitem.
    + simpl. eapply Forall_impl; [exact Hks |].
      intros k' [Hk' ?]. split; [| done].
      destruct (decide (k = k')) as [-> | Hne].
      * by rewrite lookup_insert_eq.
      * by rewrite lookup_insert_ne.
Qed.

Lemma keys_get c : Forall (λ k, is_Some (PyDict.get k c)) (PyDict.keys c).
Proof.
  apply Forall_forall. intros k Hk.
  destruct (PyDict.get k c) eqn:Hget; [by eexists |].
  by apply get_None in Hget.
Qed.

(** A checkout form sent for a cart whose products are all in the
    catalog. *)
Lemma checkout_view_post_ok uid r d c md msgs total :
  method r = POST →
  c ≠ [] →
  snapshot_total c = Some total →
  Forall (λ k, is_Some (Products_objects d !! k)) (PyDict.keys c) →
  checkout_view uid r (mkWorld d (mkSession (Some c) md) msgs)
  = (Ok (Redirect (order_confirmation_page (Order_last_id d + 1))),
     mkWorld
       (mkDB (take_stock c (PyDict.keys c) (Products_objects d))
             (profile_saved uid r (Customer_objects d))
             (relink (Order_last_id d + 1) (PyDict.keys c)
                (Order_objects d
                   ++ [Order.mk (Order_last_id d + 1) uid [] total "pending" (now r)]))
             (Order_last_id d + 1))
       (mkSession (Some []) true)
       (msgs ++ [(SUCCESS, "Order placed successfully!")])).
Proof.
  intros Hpost Hne Htotal Hks.
  unfold checkout_view.
  unfold session_get_cart, gets, mbind at 1, M_bind at 1. simpl.
  destruct c as [|entry c]; [done |].
  unfold mbind at 1, M_bind at 1.
  rewrite checkout_total_loop, Htotal, Hpost. simpl.
  unfold mbind at 1, M_bind at 1. rewrite checkout_customer_run.
  unfold mbind at 1, M_bind at 1.
  unfold Order_create at 1. unfold_monad. simpl.
  rewrite checkout_product_loop_ok; [done |]. simpl.
  pose proof (keys_get (entry :: c)) as Hget.
  rewrite Forall_forall in Hks, Hget. apply Forall_forall.
  intros k Hk. split; [by apply Hks | by apply Hget].
Qed.

(** A checkout form sent for a cart with a product that is not in the
    catalog: the products listed before it are dealt with, then
    [Products.objects.get] raises. *)
Lemma checkout_view_post_missing uid r d c md msgs total pre k post :
  method r = POST →
  snapshot_total c = Some total →
  PyDict.keys c = pre ++ k :: post →
  Forall (λ k, is_Some (Products_objects d !! k)) pre →
  Products_objects d !! k = None →
  checkout_view uid r (mkWorld d (mkSession (Some c) md) msgs)
  = (Raise DoesNotExist,
     mkWorld
       (mkDB (take_stock c pre (Products_objects d))
             (profile_saved uid r (Customer_objects d))
             (relink (Order_last_id d + 1) pre
                (Order_objects d
                   ++ [Order.mk (Order_last_id d + 1) uid [] total "pending" (now r)]))
             (Order_last_id d + 1))
       (mkSession (Some c) md) msgs).
Proof.
  intros Hpost Htotal Hkeys Hpre Hk.
  unfold checkout_view.
  unfold session_get_cart, gets, mbind at 1, M_bind at 1. simpl.
  destruct c as [|entry c]; [by destruct pre |].
  unfold mbind at 1, M_bind at 1.
  rewrite checkout_total_loop, Htotal, Hpost. simpl.
  unfold mbind at 1, M_bind at 1. rewrite checkout_customer_run.
  unfold mbind at 1, M_bind at 1.
  unfold Order_create at 1. unfold_monad. simpl.
  change (entry.1 :: PyDict.keys c) with (PyDict.keys (entry :: c)).
  rewrite Hkeys, for_each_app, checkout_product_loop_ok.
  - rewrite for_each_cons, checkout_product_step_missing; [done |]. simpl.
    destruct (take_stock (entry :: c) pre (Products_objects d) !! k) eqn:Hl;
      [| done].
    assert (is_Some (Products_objects d !! k)) as [? ?]; [| congruence].
    eapply take_stock_dom. by eexists.
  - simpl. pose proof (keys_get (entry :: c)) as Hget. rewrite Hkeys in Hget.
    apply Forall_app in Hget as [Hget _].
    rewrite Forall_forall in Hpre, Hget. apply Forall_forall.
    intros k' Hk'. split; [by apply Hpre | by apply Hget].
Qed.





Lemma first_missing m ks :
  ¬ Forall (λ k, is_Some (m !! k)) ks →
  ∃ pre k post, ks = pre ++ k :: post
                ∧ Forall (λ k, is_Some (m !! k)) pre ∧ m !! k = None.
Proof.
  induction ks as [|k ks IH]; intros Hnot.
  - destruct Hnot. constructor.
  - destruct (m !! k) as [p|] eqn:Hk.
    + destruct IH as (pre & k' & post & -> & Hpre & Hk').
      * intros Hks. apply Hnot. constructor; [by rewrite Hk | done].
      * exists (k :: pre), k', post. split_and!; [done | | done].
        constructor; [by rewrite Hk | done].
    + exists [], k, ks. by split_and!.
Qed.
End CheckoutFacts.

Section CheckoutClaims.
Implicit Types (w : World) (r : Request) (c : Cart) (d : DB).

Lemma session_cart_nonempty w :
  session_cart w ≠ [] →
  w = mkWorld (db w) (mkSession (Some (session_cart w)) (modified (session w)))
        (messages w).
Proof. destruct w as [d [[c|] md] msgs]; simpl; [done |]. by intros []. Qed.

Lemma checkout_view_unreadable uid r w :
  session_cart w ≠ [] →
  snapshot_total (session_cart w) = None →
  checkout_view uid r w = (Raise ValueError, w).
Proof.
  intros Hne Htotal. unfold checkout_view.
  unfold session_get_cart, gets, mbind at 1, M_bind at 1. simpl.
  fold (session_cart w). destruct (session_cart w) as [|entry c]; [done |].
  unfold mbind at 1, M_bind at 1. by rewrite checkout_total_loop, Htotal.
Qed.

Lemma checkout_view_get uid r w total :
  session_cart w ≠ [] →
  snapshot_total (session_cart w) = Some total →
  method r = GET →
  checkout_view uid r w
  = (Ok (Render "shop/checkout.html"
           (CheckoutContext total (session_cart w)
              (Customer_objects (db w) !! uid))), w).
Proof.
  intros Hne Htotal Hget. unfold checkout_view.
  unfold session_get_cart, gets, mbind at 1, M_bind at 1. simpl.
  fold (session_cart w). destruct (session_cart w) as [|entry c]; [done |].
  unfold mbind at 1, M_bind at 1. rewrite checkout_total_loop, Htotal, Hget.
  by unfold_monad.
Qed.












(** C4: with an empty cart (or none), [checkout] writes nothing to the
    database and leaves the session alone; for a logged-in user it queues
    the warning that the cart is empty and redirects to the home page;
    anybody else is sent to the login page by [login_required]. *)
Theorem checkout_empty_cart w r :
  session_cart w = [] →
  db (checkout r w).2 = db w
  ∧ session (checkout r w).2 = session w
  ∧ (∀ uid, user r = Some uid →
       (checkout r w).1 = Ok (Redirect home)
       ∧ messages (checkout r w).2
         = messages w ++ [(WARNING, "Your cart is empty!")])
  ∧ (user r = None →
       (checkout r w).1 = Ok (Redirect login)
       ∧ messages (checkout r w).2 = messages w).
Proof.
  intros Hempty. unfold checkout, login_required.
  destruct (user r) as [uid|]; simpl.
  - assert (checkout_view uid r w
            = (Ok (Redirect home),
               mkWorld (db w) (session w)
                 (messages w ++ [(WARNING, "Your cart is empty!")]))) as ->.
    { unfold checkout_view. unfold session_get_cart, gets, mbind, M_bind.
      simpl. fold (session_cart w). by rewrite Hempty. }
    split_and!; [done | done | | done]. by intros ? [= <-].
  - unfold mret, M_ret. simpl. by split_and!.
Qed.

Lemma checkout_empty_cart_witness :
  session_cart Sample.fresh = []
  ∧ checkout (Sample.submit (Some 7%N)) Sample.fresh
    = (Ok (Redirect home),
       mkWorld Sample.store (mkSession None false)
         [(WARNING, "Your cart is empty!")]).
Proof.
  split; [reflexivity |].
  destruct (checkout_empty_cart Sample.fresh (Sample.submit (Some 7%N)))
    as (Hdb & Hsession & Hin & _); [reflexivity |].
  destruct (Hin 7%N) as [Hres Hmsgs]; [reflexivity |].
  destruct (checkout (Sample.submit (Some 7%N)) Sample.fresh) as [res w'].
  simpl in *. destruct w' as [d s msgs]. simpl in *. by subst.
Defined.
End CheckoutClaims.

(** ** The order pages *)

Section OrderPages.
Implicit Types (w : World) (r : Request) (rows : list Order.t).

Global Instance newest_first_total : Total newest_first.
Proof. intros o1 o2. unfold newest_first. lia. Qed.

Global Instance newest_first_trans : Transitive newest_first.
Proof. intros o1 o2 o3. unfold newest_first. lia. Qed.

Lemma order_by_sorted rows :
  StronglySorted newest_first (order_by_created_at_desc rows).
Proof. apply (StronglySorted_merge_sort newest_first). Qed.

Lemma order_by_perm rows : order_by_created_at_desc rows ≡ₚ rows.
Proof. apply (merge_sort_Permutation newest_first). Qed.

Lemma StronglySorted_filter {A} (R : relation A) (P : A → Prop)
    `{∀ x, Decision (P x)} (l : list A) :
  StronglySorted R l → StronglySorted R (filter P l).
Proof.
  induction 1 as [|x l Hl IH Hx]; [constructor |].
  rewrite filter_cons. case_decide; [| done].
  constructor; [done |].
  rewrite Forall_forall in Hx. apply Forall_forall.
  intros y [_ Hy]%list_elem_of_filter. by apply Hx.
Qed.

(** C9: the order list page shows the orders newest first: all of them
    when no status is asked for (an empty [?status=] is no status), and,
    when one is, exactly the orders of that status, in the order they have
    in the full newest-first list. *)
Theorem order_list_newest_first w r :
  ∃ orders,
    order_list r w
    = (Ok (Render "shop/order/order_list.html"
             (OrderListContext orders (GET_params r !! "status")
                Order.status_choices)), w)
    ∧ StronglySorted newest_first orders
    ∧ (GET_params r !! "status" = None ∨ GET_params r !! "status" = Some "" →
       orders ≡ₚ Order_objects (db w))
    ∧ (∀ wanted,
         GET_params r !! "status" = Some wanted → wanted ≠ "" →
         orders
         = filter (λ o, Order.status o = wanted)
             (order_by_created_at_desc (Order_objects (db w)))
         ∧ orders ≡ₚ filter (λ o, Order.status o = wanted) (Order_objects (db w))
         ∧ ∀ o, o ∈ orders ↔ o ∈ Order_objects (db w) ∧ Order.status o = wanted).
Proof.
  unfold order_list. unfold_monad. simpl.
  destruct (GET_params r !! "status") as [wanted|] eqn:Hstatus.
  - destruct (decide (wanted = "")) as [-> | Hne].
    + eexists. split_and!; [done | apply order_by_sorted | |].
      * intros _. apply order_by_perm.
      * by intros ? [= <-] ?.
    + eexists. split_and!; [done | | |].
      * apply StronglySorted_filter, order_by_sorted.
      * intros [? | ?]; by simplify_eq.
      * intros ? [= <-] _. split_and!; [done | by rewrite order_by_perm |].
        intros o. rewrite list_elem_of_filter, order_by_perm. tauto.
  - eexists. split_and!; [done | apply order_by_sorted | | done].
    intros _. apply order_by_perm.
Qed.

Lemma order_list_newest_first_witness :
  order_list (Sample.visit_with "status" "shipped" None) Sample.archive
  = (Ok (Render "shop/order/order_list.html"
           (OrderListContext [Sample.order_2; Sample.order_3] (Some "shipped")
              Order.status_choices)), Sample.archive).
Proof.
  destruct (order_list_newest_first Sample.archive
              (Sample.visit_with "status" "shipped" None))
    as (orders & -> & _ & _ & Hfilter).
  destruct (Hfilter "shipped") as (-> & _); [reflexivity | discriminate |].
  reflexivity.
Defined.

Lemma get_order_or_404_found w oid order :
  order ∈ Order_objects (db w) → Order.id order = oid →
  ∃ found, found ∈ Order_objects (db w) ∧ Order.id found = oid
           ∧ get_order_or_404 oid w = (Ok found, w).
Proof.
  intros Hin Hid.
  destruct (list_find_elem_of (λ o, Order.id o = oid) _ _ Hin Hid)
    as [[i found] Hfind].
  exists found. apply list_find_Some in Hfind as Hspec.
  destruct Hspec as (Hi & Hfound & _).
  split_and!; [by eapply list_elem_of_lookup_2 | done |].
  unfold get_order_or_404. unfold_monad. simpl. by rewrite Hfind.
Qed.

(** C10: [order_confirmation] is not behind [login_required] and does
    not look at who asks: for the id of a stored order, every request,
    from any user or from nobody, is answered with the confirmation page
    of the same order row, and changes nothing. *)
Theorem order_confirmation_public w order :
  order ∈ Order_objects (db w) →
  ∃ found,
    found ∈ Order_objects (db w)
    ∧ Order.id found = Order.id order
    ∧ ∀ r, order_confirmation r (Order.id order) w
           = (Ok (Render "shop/order_confirmation.html" (OrderContext found)), w).
Proof.
  intros Hin.
  destruct (get_order_or_404_found w (Order.id order) order Hin eq_refl)
    as (found & Hfound & Hid & Hget).
  exists found. split_and!; [done | done |].
  intros r. unfold order_confirmation. unfold mbind, M_bind at 1.
  by rewrite Hget.
Qed.

Lemma order_confirmation_public_witness :
  user (Sample.visit None) = None
  ∧ order_confirmation (Sample.visit None) 2 Sample.archive
    = order_confirmation (Sample.visit (Some 7%N)) 2 Sample.archive.
Proof.
  split; [reflexivity |].
  destruct (order_confirmation_public Sample.archive Sample.order_2)
    as (found & _ & _ & Hall).
  - apply list_elem_of_further, list_elem_of_here.
  - change 2%N with (Order.id Sample.order_2). by rewrite !Hall.
Defined.
End OrderPages.


(** * Further properties *)

(** ** The cart, continued *)

Section CartMore.
Implicit Types (w : World) (r : Request) (p : N) (c : Cart).

Lemma del_set_absent {K V} `{EqDecision K} (k : K) (v : V) (d : PyDict.t K V) :
  PyDict.get k d = None → PyDict.del k (PyDict.set k v d) = d.
Proof.
  induction d as [|[k' v'] d IH]; simpl.
  - intros _. by rewrite decide_True.
  - case_decide; [done |]. intros Hget. simpl.
    rewrite decide_False by done. by rewrite IH.
Qed.

Lemma snapshot_total_snoc c k item :
  snapshot_total (c ++ [(k, item)])
  = t ← snapshot_total c; x ← line_total item; Some (t + x).
Proof.
  induction c as [|[k' item'] c IH]; simpl.
  - unfold line_total. destruct (Numeral.float (CartItem.price item)); simpl;
      [f_equal; lia | done].
  - destruct (Numeral.float (CartItem.price item')) as [p'|]; simpl; [| done].
    rewrite IH. destruct (snapshot_total c) as [t|]; simpl; [| done].
    destruct (line_total item) as [x|]; simpl; [f_equal; lia | done].
Qed.



(** X2: adding a product the cart already holds keeps the entry's name
    and price snapshot whatever the catalog says by now, keeps the keys in
    their order and every other entry, and writes nothing to the database:
    no stock is held back for a cart. *)
Theorem add_to_cart_keeps_snapshot w r p prod q item :
  Products_objects (db w) !! p = Some prod →
  quantity_of r = Some q →
  PyDict.get p (session_cart w) = Some item →
  db (add_to_cart r p w).2 = db w
  ∧ PyDict.keys (session_cart (add_to_cart r p w).2) = PyDict.keys (session_cart w)
  ∧ PyDict.get p (session_cart (add_to_cart r p w).2)
    = Some (CartItem.mk (CartItem.name item) (CartItem.price item)
              (CartItem.quantity item + q) (CartItem.total item))
  ∧ ∀ k, k ≠ p →
      PyDict.get k (session_cart (add_to_cart r p w).2)
      = PyDict.get k (session_cart w).
Proof.
  intros Hprod Hq Hitem. rewrite (add_to_cart_ok w r p prod q Hprod Hq). simpl.
  rewrite session_cart_mk. unfold cart_after_add. rewrite Hitem.
  split_and!; [done | | apply get_set_eq |].
  - apply keys_set_present. by eexists.
  - intros k Hk. by apply get_set_ne.
Qed.

Lemma add_to_cart_keeps_snapshot_witness :
  Products.price Sample.product_A = 1200
  ∧ PyDict.get 1%N (session_cart
                    (add_to_cart (Sample.visit None) 1
                       (Sample.holding Sample.cart_AB)).2)
    = Some (CartItem.mk "A" "10.00" 3 None).
Proof.
  split; [reflexivity |].
  destruct (add_to_cart_keeps_snapshot (Sample.holding Sample.cart_AB)
              (Sample.visit None) 1 Sample.product_A 1 (Sample.item_A 2))
    as (_ & _ & -> & _); reflexivity.
Defined.

(** X3: for a product that was not in the cart, [add_to_cart] and then
    [remove_from_cart] give the cart back as it was. *)
Theorem add_then_remove w r r' p prod q :
  Products_objects (db w) !! p = Some prod →
  quantity_of r = Some q →
  PyDict.get p (session_cart w) = None →
  (remove_from_cart r' p (add_to_cart r p w).2).1 = Ok (Redirect cart_page)
  ∧ session_cart (remove_from_cart r' p (add_to_cart r p w).2).2 = session_cart w
  ∧ db (remove_from_cart r' p (add_to_cart r p w).2).2 = db w.
Proof.
  intros Hprod Hq Habsent. rewrite (add_to_cart_ok w r p prod q Hprod Hq). simpl.
  erewrite remove_from_cart_present;
    [| rewrite session_cart_mk; unfold cart_after_add; apply get_set_eq].
  simpl. rewrite !session_cart_mk. split_and!; [done | | done].
  unfold cart_after_add. by apply del_set_absent.
Qed.

Lemma add_then_remove_witness :
  session_cart
    (remove_from_cart (Sample.visit None) 1
       (add_to_cart (Sample.visit_with "quantity" "4" None) 1
          (Sample.holding Sample.cart_B2)).2).2
  = Sample.cart_B2.
Proof.
  destruct (add_then_remove (Sample.holding Sample.cart_B2)
              (Sample.visit_with "quantity" "4" None) (Sample.visit None) 1
              Sample.product_A 4) as (_ & -> & _); reflexivity.
Defined.

(** X4: adding [q] of a product that was not in the cart raises the sum of
    the cart by the product's catalog price times [q]: the snapshot text
    reads back as the price it was taken from. *)
Theorem add_to_cart_raises_total w r p prod q t :
  Products_objects (db w) !! p = Some prod →
  quantity_of r = Some q →
  PyDict.get p (session_cart w) = None →
  snapshot_total (session_cart w) = Some t →
  snapshot_total (session_cart (add_to_cart r p w).2)
  = Some (t + Products.price prod * q).
Proof.
  intros Hprod Hq Habsent Ht. rewrite (add_to_cart_ok w r p prod q Hprod Hq).
  simpl. rewrite session_cart_mk, cart_after_add_absent by done.
  rewrite snapshot_total_snoc, Ht. simpl. unfold line_total. simpl.
  by rewrite float_str.
Qed.

Lemma add_to_cart_raises_total_witness :
  snapshot_total (session_cart (Sample.holding Sample.cart_B2)) = Some 1000
  ∧ snapshot_total
      (session_cart
         (add_to_cart (Sample.visit_with "quantity" "4" None) 1
            (Sample.holding Sample.cart_B2)).2)
    = Some (1000 + 1200 * 4).
Proof.
  split; [reflexivity |].
  apply (add_to_cart_raises_total (Sample.holding Sample.cart_B2)
           (Sample.visit_with "quantity" "4" None) 1 Sample.product_A 4 1000);
    reflexivity.
Defined.
End CartMore.

(** ** The cart page, continued *)

Section CartViewMore.
Implicit Types (w : World) (r : Request) (c : Cart).

Lemma cart_view_run w r t :
  PyDict.wf (session_cart w) →
  snapshot_total (session_cart w) = Some t →
  cart_view r w
  = (Ok (Render "shop/cart.html" (CartContext (cart_lines (session_cart w)) t)),
     mkWorld (db w)
       (mkSession (stamped <$> cart (session w)) (modified (session w)))
       (messages w)).
Proof.
  destruct w as [d [[c|] md] msgs]; unfold session_cart; simpl.
  - apply cart_view_ok.
  - intros _ [= <-]. reflexivity.
Qed.

Lemma session_cart_stamped d o md msgs :
  session_cart (mkWorld d (mkSession (stamped <$> o) md) msgs)
  = stamped (default [] o).
Proof. by destruct o. Qed.



Lemma stamped_stamped c : stamped (stamped c) = stamped c.
Proof.
  unfold stamped. rewrite <- list_fmap_compose. apply list_fmap_ext.
  intros _ [k item] _. simpl. f_equal.
  destruct (line_total item) as [x|] eqn:Hx; simpl; [| by rewrite Hx].
  assert (line_total (CartItem.with_total x item) = Some x) as -> by done.
  done.
Qed.

Lemma snapshot_total_stamped c : snapshot_total (stamped c) = snapshot_total c.
Proof.
  induction c as [|[k item] c IH]; simpl; [done |]. rewrite IH.
  by destruct (line_total item).
Qed.

Lemma wf_stamped c : PyDict.wf c → PyDict.wf (stamped c).
Proof. unfold PyDict.wf. by rewrite stamped_keys. Qed.



(** X6: viewing the cart a second time gives the same page as the first
    time and changes nothing more. *)
Theorem cart_view_twice w r r' t :
  PyDict.wf (session_cart w) →
  snapshot_total (session_cart w) = Some t →
  cart_view r' (cart_view r w).2 = cart_view r w.
Proof.
  intros Hwf Ht. rewrite (cart_view_run w r t Hwf Ht). simpl.
  rewrite (cart_view_run _ r' t); rewrite ?session_cart_stamped;
    fold (session_cart w);
    [| by apply wf_stamped | by rewrite snapshot_total_stamped].
  simpl. unfold cart_lines. rewrite stamped_stamped.
  destruct (cart (session w)) as [c|]; simpl; [by rewrite stamped_stamped | done].
Qed.

Lemma cart_view_twice_witness :
  cart_view (Sample.visit (Some 7%N))
    (cart_view (Sample.visit None) (Sample.holding Sample.cart_AB)).2
  = cart_view (Sample.visit None) (Sample.holding Sample.cart_AB).
Proof.
  apply (cart_view_twice (Sample.holding Sample.cart_AB) (Sample.visit None)
           (Sample.visit (Some 7%N)) 2500); [by_compute | reflexivity].
Defined.
End CartViewMore.

(** ** Checkout, continued *)

Section CheckoutMore.
Implicit Types (w : World) (r : Request) (c : Cart) (d : DB).

(** What [checkout] can do to the database: nothing, or the writes of a
    form for a non-empty cart up to some point of the product loop. *)
Lemma checkout_db w r :
  (db (checkout r w).2 = db w ∧ session (checkout r w).2 = session w)
  ∨ ∃ uid total ks rest,
      PyDict.keys (session_cart w) = ks ++ rest
      ∧ user r = Some uid ∧ method r = POST
      ∧ session_cart w ≠ []
      ∧ snapshot_total (session_cart w) = Some total
      ∧ db (checkout r w).2
        = mkDB (take_stock (session_cart w) ks (Products_objects (db w)))
            (profile_saved uid r (Customer_objects (db w)))
            (relink (Order_last_id (db w) + 1) ks
               (Order_objects (db w)
                  ++ [Order.mk (Order_last_id (db w) + 1) uid [] total
                        "pending" (now r)]))
            (Order_last_id (db w) + 1).
Proof.
  unfold checkout, login_required.
  destruct (user r) as [uid|] eqn:Huser; [| by left].
  destruct (decide (session_cart w = [])) as [Hnil | Hne].
  { left. unfold checkout_view, session_get_cart, gets, mbind, M_bind. simpl.
    fold (session_cart w). by rewrite Hnil. }
  destruct (snapshot_total (session_cart w)) as [total|] eqn:Htotal;
    [| left; by rewrite checkout_view_unreadable].
  destruct (method r) eqn:Hmethod;
    [left; by rewrite (checkout_view_get _ _ _ total) |].
  right. exists uid, total.
  destruct (decide (Forall (λ k, is_Some (Products_objects (db w) !! k))
                      (PyDict.keys (session_cart w)))) as [Hks | Hmissing].
  - exists (PyDict.keys (session_cart w)), []. rewrite app_nil_r.
    split_and!; try done.
    rewrite (session_cart_nonempty w Hne) at 1.
    by rewrite (checkout_view_post_ok uid r _ _ _ _ total).
  - apply first_missing in Hmissing as (pre & k & post & Hkeys & Hpre & Hk).
    exists pre, (k :: post). split_and!; try done.
    rewrite (session_cart_nonempty w Hne) at 1.
    by rewrite (checkout_view_post_missing uid r _ _ _ _ total pre k post).
Qed.



Lemma take_stock_fields c ks (m : gmap N Products.t) k p' :
  take_stock c ks m !! k = Some p' →
  ∃ p, m !! k = Some p ∧ p' = Products.with_stock (Products.stock p') p.
Proof.
  revert m. induction ks as [|k0 ks IH]; intros m Hp'.
  - exists p'. split; [done | by destruct p'].
  - change (take_stock c (k0 :: ks) m)
      with (take_stock c ks
              match m !! k0, PyDict.get k0 c with
              | Some p0, Some item0 =>
                  <[k0 := Products.with_stock
                            (Products.stock p0 - CartItem.quantity item0) p0]> m
              | _, _ => m
              end) in Hp'.
    apply IH in Hp' as (p & Hp & Heq).
    destruct (m !! k0) as [p0|] eqn:Hk0; [| by exists p].
    destruct (PyDict.get k0 c) as [item0|]; [| by exists p].
    destruct (decide (k0 = k)) as [-> | Hne].
    + rewrite lookup_insert_eq in Hp. simplify_eq. exists p0.
      split; [done |]. rewrite Heq at 1. done.
    + rewrite lookup_insert_ne in Hp by done. by exists p.
Qed.




















(** X16: whatever the request and however it ends, [checkout] neither adds
    a product to the catalog nor removes one, and changes nothing of a
    product but its stock. *)
Theorem checkout_keeps_catalog w r k :
  (is_Some (Products_objects (db (checkout r w).2) !! k)
   ↔ is_Some (Products_objects (db w) !! k))
  ∧ ∀ p', Products_objects (db (checkout r w).2) !! k = Some p' →
      ∃ p, Products_objects (db w) !! k = Some p
           ∧ Products.name p' = Products.name p
           ∧ Products.price p' = Products.price p
           ∧ Products.description p' = Products.description p
           ∧ Products.Category p' = Products.Category p.
Proof.
  destruct (checkout_db w r)
    as [[-> _] | (uid & total & ks & rest & _ & _ & _ & _ & _ & ->)].
  - split; [done |]. intros p' Hp'. by exists p'.
  - simpl. split; [apply take_stock_dom |].
    intros p' Hp'. apply take_stock_fields in Hp' as (p & Hp & ->).
    by exists p.
Qed.
End CheckoutMore.

(** ** The order pages, continued *)

Section OrderPagesMore.
Implicit Types (w : World) (r : Request) (rows : list Order.t).

Lemma get_order_or_404_missing w oid :
  Forall (λ o, Order.id o ≠ oid) (Order_objects (db w)) →
  get_order_or_404 oid w = (Raise Http404, w).
Proof.
  intros Hrows. unfold get_order_or_404. unfold_monad. simpl.
  destruct (list_find _ _) as [[i o]|] eqn:Hfind; [| done].
  apply list_find_Some in Hfind as (Hi & Hid & _).
  rewrite Forall_forall in Hrows.
  destruct (Hrows o); [by eapply list_elem_of_lookup_2 | done].
Qed.

Lemma get_order_or_404_unique w order :
  NoDup (order_ids (db w)) →
  order ∈ Order_objects (db w) →
  get_order_or_404 (Order.id order) w = (Ok order, w).
Proof.
  intros Hnd Hin.
  destruct (get_order_or_404_found w (Order.id order) order Hin eq_refl)
    as (found & Hfound & Hid & ->).
  f_equal. f_equal.
  apply list_elem_of_lookup in Hin as [i Hi].
  apply list_elem_of_lookup in Hfound as [j Hj].
  assert (i = j) as ->; [| congruence].
  eapply NoDup_lookup; [exact Hnd | |]; unfold order_ids;
    rewrite list_lookup_fmap; [by rewrite Hi | by rewrite Hj; simpl; rewrite Hid].
Qed.


(** X17: [my_orders] changes nothing; it sends a visitor who is not
    logged in to the login page, and shows a logged-in user the orders of
    their own profile and no others, newest first: all of them when the
    profile exists, an empty list when it does not. *)
Theorem my_orders_own w r :
  ∃ reply,
    my_orders r w = (Ok reply, w)
    ∧ (user r = None → reply = Go to_login)
    ∧ ∀ uid, user r = Some uid →
        ∃ orders,
          reply = Page "shop/my_orders.html" (MyOrdersContext orders)
          ∧ StronglySorted newest_first orders
          ∧ (∀ o, o ∈ orders → o ∈ Order_objects (db w) ∧ Order.customer o = uid)
          ∧ (is_Some (Customer_objects (db w) !! uid) →
             orders ≡ₚ filter (λ o, Order.customer o = uid) (Order_objects (db w)))
          ∧ (Customer_objects (db w) !! uid = None → orders = []).
Proof.
  unfold my_orders, login_required_page.
  destruct (user r) as [uid|] eqn:Huser.
  - unfold my_orders_view. unfold_monad. simpl.
    destruct (Customer_objects (db w) !! uid) as [profile|] eqn:Hprofile; simpl.
    + eexists. split_and!; [done | done |]. intros ? [= <-].
      eexists. split_and!; [done | apply order_by_sorted | | | congruence].
      * intros o. rewrite order_by_perm, list_elem_of_filter. tauto.
      * intros _. apply order_by_perm.
    + eexists. split_and!; [done | done |]. intros ? [= <-].
      exists []. split_and!; [done | constructor | | | done].
      * by intros o ?%elem_of_nil.
      * intros [? ?]. congruence.
  - eexists. split_and!; [done | done | done].
Qed.

Lemma my_orders_own_witness :
  user (Sample.visit (Some 7%N)) = Some 7%N
  ∧ ∃ orders,
      my_orders (Sample.visit (Some 7%N)) Desk.registered
      = (Ok (Page "shop/my_orders.html" (MyOrdersContext orders)),
         Desk.registered)
      ∧ orders ≡ₚ [Sample.order_1; Sample.order_3].
Proof.
  split; [reflexivity |].
  destruct (my_orders_own Desk.registered (Sample.visit (Some 7%N)))
    as (reply & Hrun & _ & Hown).
  destruct (Hown 7%N) as (orders & -> & _ & _ & Hperm & _); [reflexivity |].
  exists orders. split; [exact Hrun |]. apply Hperm. by eexists.
Defined.

(** X18: for an id no order has, [order_confirmation], [order_detail] and
    [order_update_status] all answer with [Http404] and change nothing. *)
Theorem order_pages_404 w r oid :
  Forall (λ o, Order.id o ≠ oid) (Order_objects (db w)) →
  order_confirmation r oid w = (Raise Http404, w)
  ∧ order_detail r oid w = (Raise Http404, w)
  ∧ order_update_status r oid w = (Raise Http404, w).
Proof.
  intros Hrows. unfold order_confirmation, order_detail, order_update_status.
  unfold mbind, M_bind. by rewrite get_order_or_404_missing.
Qed.

Lemma order_pages_404_witness :
  order_update_status (Desk.set_status "shipped") 9 Desk.registered
  = (Raise Http404, Desk.registered).
Proof.
  destruct (order_pages_404 Desk.registered (Desk.set_status "shipped") 9)
    as (_ & _ & ->); [| reflexivity].
  repeat constructor; discriminate.
Defined.




(** X20: [order_update_status] changes nothing when the request is a
    [GET], or a form without a status or with a text that is none of the
    five status values: it shows the form for the stored order again. *)
Theorem order_update_status_rejects w r order :
  NoDup (order_ids (db w)) →
  order ∈ Order_objects (db w) →
  method r = GET
  ∨ POST_params r !! "status" = None
  ∨ (∃ text, POST_params r !! "status" = Some text
             ∧ text ∉ Order.status_choices.*1) →
  ∃ form,
    order_update_status r (Order.id order) w
    = (Ok (Page "shop/order/order_form.html"
             (OrderFormContext form order
                ("Update Order #" +:+ str_id (Order.id order)))), w)
    ∧ OrderForm.instance form = order
    ∧ OrderForm.is_valid form = false.
Proof.
  intros Hnd Hin Hcase.
  unfold order_update_status. unfold mbind at 1, M_bind at 1.
  rewrite (get_order_or_404_unique w order Hnd Hin).
  destruct (method r) eqn:Hmethod; [by eexists |].
  destruct (POST_params r !! "status") as [text|] eqn:Hs.
  - destruct (decide (text ∈ Order.status_choices.*1)) as [Hchoice | Hnot].
    { destruct Hcase as [? | [? | (t & [= <-] & ?)]]; done. }
    exists (OrderForm.mk order (Some (Some text))).
    unfold OrderForm.is_valid, OrderForm.cleaned. simpl.
    destruct (decide (text ∈ _)) as [? | _]; [done |].
    split_and!; [done | done |]. apply bool_decide_eq_false. by intros [? ?].
  - by exists (OrderForm.mk order (Some None)).
Qed.

Lemma order_update_status_rejects_witness :
  (order_update_status (Desk.set_status "Shipped") 2 Desk.registered).2
  = Desk.registered.
Proof.
  destruct (order_update_status_rejects Desk.registered
              (Desk.set_status "Shipped") Sample.order_2)
    as (form & Hrun & _);
    [by_compute | apply list_elem_of_further, list_elem_of_here | |].
  - right; right. exists "Shipped". split; [reflexivity |].
    apply (bool_decide_unpack _). vm_compute. exact I.
  - simpl in Hrun. by rewrite Hrun.
Defined.

Lemma link_all_status ks o : Order.status (link_all ks o) = Order.status o.
Proof.
  revert o. induction ks as [|k ks IH]; intros o; [done |].
  unfold link_all in *. simpl. by rewrite IH.
Qed.

(** X21: the status of every stored order stays one of the five status
    values through [checkout] and through [order_update_status], whatever
    the request and however it ends. *)
Theorem statuses_stay_choices w r r' oid :
  Forall (λ o, Order.status o ∈ Order.status_choices.*1) (Order_objects (db w)) →
  Forall (λ o, Order.status o ∈ Order.status_choices.*1)
    (Order_objects (db (checkout r w).2))
  ∧ Forall (λ o, Order.status o ∈ Order.status_choices.*1)
      (Order_objects (db (order_update_status r' oid w).2)).
Proof.
  intros Hrows. split.
  - destruct (checkout_db w r)
      as [[-> _] | (uid & total & ks & rest & _ & _ & _ & _ & _ & ->)]; [done |].
    simpl. unfold relink. apply Forall_fmap, Forall_app. split.
    + eapply Forall_impl; [exact Hrows |]. intros o Ho. simpl.
      case_decide; [by rewrite link_all_status | done].
    + apply Forall_cons. split; [| constructor]. simpl.
      case_decide; [rewrite link_all_status |]; simpl; apply list_elem_of_here.
  - unfold order_update_status, get_order_or_404. unfold_monad. simpl.
    destruct (list_find _ _) as [[i order]|]; simpl; [| done].
    destruct (method r'); [done |].
    unfold OrderForm.cleaned. simpl.
    destruct (POST_params r' !! "status") as [status|]; [| done].
    case_decide as Hchoice; [| done].
    unfold Order_update. unfold_monad. simpl. apply Forall_fmap.
    eapply Forall_impl; [exact Hrows |]. intros o Ho. simpl.
    by case_decide.
Qed.

Lemma statuses_stay_choices_witness :
  Forall (λ o, Order.status o ∈ Order.status_choices.*1)
    (Order_objects
       (db (order_update_status (Desk.set_status "delivered") 1 Desk.registered).2)).
Proof.
  destruct (statuses_stay_choices Desk.registered (Sample.visit None)
              (Desk.set_status "delivered") 1) as [_ Hrows]; [| exact Hrows].
  by_compute.
Defined.
End OrderPagesMore.

(** ** The product pages *)

Section ProductPages.
Implicit Types (w : World) (r : Request) (p : N).

Lemma product_delete_run w r p prod :
  Products_objects (db w) !! p = Some prod →
  method r = POST →
  product_delete r p w
  = (Ok (Go to_product_list),
     mkWorld
       (mkDB (delete p (Products_objects (db w))) (Customer_objects (db w))
          (Order_unlink p <$> Order_objects (db w)) (Order_last_id (db w)))
       (session w)
       (messages w ++ [(SUCCESS, "Product deleted successfully!")])).
Proof.
  intros Hprod Hpost.
  unfold product_delete, get_product_or_404, Products_delete. unfold_monad.
  simpl. by rewrite Hprod, Hpost.
Qed.

(** X22: a delete form for a product of the catalog removes that product
    and no other, unlinks it from every order, and keeps every order row
    with its id and its total; the session, so a cart that holds the
    product, is not touched. *)
Theorem product_delete_removes w r p prod :
  Products_objects (db w) !! p = Some prod →
  method r = POST →
  (product_delete r p w).1 = Ok (Go to_product_list)
  ∧ Products_objects (db (product_delete r p w).2) !! p = None
  ∧ (∀ k, k ≠ p →
       Products_objects (db (product_delete r p w).2) !! k
       = Products_objects (db w) !! k)
  ∧ order_ids (db (product_delete r p w).2) = order_ids (db w)
  ∧ Order.total_amount <$> Order_objects (db (product_delete r p w).2)
    = Order.total_amount <$> Order_objects (db w)
  ∧ Forall (λ o, p ∉ Order.products o)
      (Order_objects (db (product_delete r p w).2))
  ∧ session (product_delete r p w).2 = session w.
Proof.
  intros Hprod Hpost. rewrite (product_delete_run w r p prod Hprod Hpost).
  simpl. split_and!; [done | apply lookup_delete_eq | | | | | done].
  - intros k Hk. by apply lookup_delete_ne.
  - unfold order_ids. simpl. rewrite <- list_fmap_compose.
    by apply list_fmap_ext.
  - rewrite <- list_fmap_compose. by apply list_fmap_ext.
  - apply Forall_fmap, Forall_forall. intros o _. simpl.
    rewrite list_elem_of_filter. tauto.
Qed.

Lemma product_delete_removes_witness :
  Order.products Sample.order_3 = [1%N; 2%N]
  ∧ Forall (λ o, 2%N ∉ Order.products o)
      (Order_objects (db (product_delete Desk.confirm_delete 2 Desk.registered).2)).
Proof.
  split; [reflexivity |].
  destruct (product_delete_removes Desk.registered Desk.confirm_delete 2
              Sample.product_B) as (_ & _ & _ & _ & _ & Hrows & _);
    [reflexivity | reflexivity | exact Hrows].
Defined.

(** X23: [product_detail], and [product_delete] on a [GET] or for an id
    the catalog does not have, change nothing: an id of the catalog is
    answered with the page of that product, any other with [Http404]. *)
Theorem product_pages_read_only w r p :
  (product_detail r p w).2 = w
  ∧ (method r = GET ∨ Products_objects (db w) !! p = None →
     (product_delete r p w).2 = w)
  ∧ (Products_objects (db w) !! p = None →
     (product_detail r p w).1 = Raise Http404
     ∧ (product_delete r p w).1 = Raise Http404)
  ∧ ∀ prod, Products_objects (db w) !! p = Some prod →
      (product_detail r p w).1
      = Ok (Page "shop/product_detail.html" (ProductContext p prod))
      ∧ (method r = GET →
         (product_delete r p w).1
         = Ok (Page "shop/product/product_confirm_delete.html"
                 (ProductContext p prod))).
Proof.
  unfold product_detail, product_delete, get_product_or_404. unfold_monad.
  simpl. destruct (Products_objects (db w) !! p) as [prod|] eqn:Hprod; simpl.
  - split_and!; [done | | done |].
    + intros [-> | ?]; done.
    + intros ? [= <-]. split; [done |]. by intros ->.
  - by split_and!.
Qed.

Lemma product_pages_read_only_witness :
  (product_delete (Sample.visit None) 2 Desk.registered).2 = Desk.registered.
Proof.
  destruct (product_pages_read_only Desk.registered (Sample.visit None) 2)
    as (_ & Hsame & _).
  apply Hsame. left. reflexivity.
Defined.



Lemma starts_with_spec q s : starts_with q s = true ↔ ∃ b, s = q +:+ b.
Proof.
  revert s. induction q as [|a q IH]; intros s; simpl.
  - split; [intros _; by exists s | done].
  - destruct s as [|c s]; simpl.
    + split; [done | by intros [b ?]].
    + rewrite andb_true_iff, bool_decide_eq_true, IH. split.
      * intros [-> [b ->]]. by exists b.
      * intros [b [= -> ->]]. split; [done | by exists b].
Qed.

Lemma occurs_in_spec q s : occurs_in q s = true ↔ ∃ a b, s = a +:+ q +:+ b.
Proof.
  induction s as [|c s IH]; simpl; rewrite orb_true_iff, starts_with_spec.
  - split.
    + intros [[b Hb] | ?]; [by exists "", b | done].
    + intros (a & b & Hs). left. destruct a; [by exists b | done].
  - rewrite IH. split.
    + intros [[b Hb] | (a & b & ->)]; [by exists "", b | by exists (String c a), b].
    + intros (a & b & Hs). destruct a as [|c' a]; simpl in Hs.
      * left. by exists b.
      * right. injection Hs as -> ->. by exists a, b.
Qed.

(** X25: [product_list] changes nothing and lists every product once; all
    of them when there is no search text or an empty one, and otherwise
    exactly the products whose name or description holds the text, both
    taken under the case folding of the database. *)
Theorem product_list_search fold w r :
  ∃ products,
    product_list fold r w
    = (Ok (Page "shop/product/product_list.html"
             (ProductListContext products (GET_params r !! "search"))), w)
    ∧ NoDup products.*1
    ∧ (GET_params r !! "search" = None ∨ GET_params r !! "search" = Some "" →
       products = map_to_list (Products_objects (db w)))
    ∧ ∀ q, GET_params r !! "search" = Some q → q ≠ "" →
        ∀ id prod,
          (id, prod) ∈ products
          ↔ Products_objects (db w) !! id = Some prod
            ∧ ((∃ a b, fold (Products.name prod) = a +:+ fold q +:+ b)
               ∨ (∃ a b, fold (Products.description prod) = a +:+ fold q +:+ b)).
Proof.
  unfold product_list. unfold_monad. simpl.
  destruct (GET_params r !! "search") as [q|] eqn:Hsearch.
  - destruct (decide (q = "")) as [-> | Hq].
    + eexists. split_and!; [done | apply NoDup_fst_map_to_list | done |].
      by intros ? [= <-] ?.
    + eexists. split_and!; [done | | |].
      * apply NoDup_fmap_fst.
        { intros id p1 p2 [_ H1]%list_elem_of_filter [_ H2]%list_elem_of_filter.
          apply elem_of_map_to_list in H1, H2. congruence. }
        apply NoDup_filter, NoDup_map_to_list.
      * intros [? | ?]; by simplify_eq.
      * intros ? [= <-] _ id prod.
        rewrite list_elem_of_filter, elem_of_map_to_list. simpl.
        unfold icontains.
        rewrite orb_True, !Is_true_true, !occurs_in_spec. tauto.
  - eexists. split_and!; [done | apply NoDup_fst_map_to_list | done | done].
Qed.

Lemma product_list_search_witness :
  ∃ products,
    product_list lower (Sample.visit_with "search" "SECOND" None) Desk.registered
    = (Ok (Page "shop/product/product_list.html"
             (ProductListContext products (Some "SECOND"))), Desk.registered)
    ∧ (2%N, Sample.product_B) ∈ products.
Proof.
  destruct (product_list_search lower Desk.registered
              (Sample.visit_with "search" "SECOND" None))
    as (products & Hrun & _ & _ & Hsearch).
  exists products. split; [exact Hrun |].
  apply (Hsearch "SECOND"); [reflexivity | discriminate |].
  split; [reflexivity |]. right. by exists "", "".
Defined.
End ProductPages.

(** ** Checkout after a failure *)

Section CheckoutRetry.
Implicit Types (w : World) (r : Request).



End CheckoutRetry.
